(** * ZHA channels: a shallow embedding of
      [homeassistant/components/zha/core/channels/base.py]

    The module wraps one Zigbee cluster of a device in a "channel" object.
    A channel binds the cluster, configures attribute reporting, relays
    inbound frames to the dispatcher, and hands out the cluster's commands
    wrapped so that radio failures come back as values.

    The embedding follows the Python text: coroutines are computations in
    a state-and-exception monad; the state holds the channel's [_status]
    and the chronological record of everything the channel asked of its
    collaborators (cluster, channel pool, logger, event loop).  The
    collaborators answer as functions of that record, so any behaviour of
    the radio, however it depends on what happened before, is covered by
    quantifying over these functions. *)

From Stdlib Require Import ZArith QArith Lqa Ascii HexadecimalString.
From Stdlib Require HexadecimalN.
From stdpp Require Import base option strings gmap list.

Set Warnings "-register-all".
Local Open Scope string_scope.
Local Open Scope list_scope.
Local Open Scope Z_scope.

(** ** Python values and exceptions *)

(** The exception classes the module distinguishes.  [DeliveryError] is
    [zigpy.exceptions.DeliveryError], [TimeoutError] is
    [asyncio.TimeoutError]; everything else a collaborator may raise is
    an [OtherException] tagged with its class name. *)
Inductive exn :=
| DeliveryError (msg : string)
| TimeoutError (msg : string)
| IndexError (msg : string)
| AttributeError (msg : string)
| OtherException (cls msg : string).

(** [str(ex)] *)
Definition str_exn (ex : exn) : string :=
  match ex with
  | DeliveryError m | TimeoutError m | IndexError m | AttributeError m => m
  | OtherException _ m => m
  end.

(** The test of the clause
    [except (zigpy.exceptions.DeliveryError, asyncio.TimeoutError)]. *)
Definition delivery_or_timeout (ex : exn) : bool :=
  match ex with
  | DeliveryError _ | TimeoutError _ => true
  | _ => false
  end.

Inductive pyval :=
| PNone
| PBool (b : bool)
| PInt (z : Z)
| PStr (s : string)
| PList (l : list pyval)
| PDict (d : list (string * pyval))
| PExn (ex : exn).

(** An attribute designator as it appears in a report configuration: a
    numeric attribute id or an attribute name. *)
Inductive attr_ref :=
| AttrId (z : Z)
| AttrName (s : string).

Global Instance attr_ref_eq_dec : EqDecision attr_ref.
Proof. solve_decision. Defined.

Definition pyval_of_attr (a : attr_ref) : pyval :=
  match a with AttrId z => PInt z | AttrName s => PStr s end.

(** ** Effects *)

(** The payload [zha_send_event] hands to the pool. *)
Record zha_event := {
  ev_unique_id : string;
  ev_cluster_id : Z;
  ev_command : string;
  ev_args : pyval
}.

(** Everything a channel asks of the outside, in the order it asks. *)
Inductive event :=
| Logged (level : Z) (msg : string) (args : list pyval)
| Bind
| ConfigureReporting (attr : attr_ref) (min_report_int max_report_int
                      reportable_change : Z) (manufacturer : option Z)
| ReadAttributes (attrs : list attr_ref) (allow_cache only_cache : bool)
                 (manufacturer : option Z)
| CommandCall (name : option string) (args : list pyval)
              (kwds : list (string * pyval))
| Sleep (seconds : Q)
| SendSignal (signal : string) (args : list pyval)
| ZhaSendEvent (payload : zha_event).

Definition history := list event.

Inductive ChannelStatus := CREATED | CONFIGURED | INITIALIZED.

(** The values of the enumeration members. *)
Definition status_value (s : ChannelStatus) : Z :=
  match s with CREATED => 1 | CONFIGURED => 2 | INITIALIZED => 3 end.

Record state := {
  _status : ChannelStatus;
  trace : history
}.

Inductive outcome (A : Type) :=
| Return (a : A)
| Raise (ex : exn).
Arguments Return {A} a.
Arguments Raise {A} ex.

(** A coroutine of the module: from the state before to its outcome and
    the state after.  Effects done before an exception stay done. *)
Definition M (A : Type) : Type := state -> outcome A * state.

Global Instance M_ret : MRet M := fun A a s => (Return a, s).

Global Instance M_bind : MBind M := fun A B k m s =>
  match m s with
  | (Return a, s') => k a s'
  | (Raise ex, s') => (Raise ex, s')
  end.

Definition raise {A} (ex : exn) : M A := fun s => (Raise ex, s).

(** [try: body except (classes) as ex: handler] *)
Definition try_except {A} (body : M A) (catches : exn -> bool)
    (handler : exn -> M A) : M A := fun s =>
  match body s with
  | (Return a, s') => (Return a, s')
  | (Raise ex, s') => if catches ex then handler ex s' else (Raise ex, s')
  end.

(** Record an effect that has no answer. *)
Definition emit (e : event) : M unit := fun s =>
  (Return tt, {| _status := _status s; trace := trace s ++ [e] |}).

(** Await a collaborator: the request is recorded, the answer is the
    collaborator's, given everything that happened before. *)
Definition await {A} (e : event) (answer : history -> outcome A) : M A :=
  fun s =>
    (answer (trace s), {| _status := _status s; trace := trace s ++ [e] |}).

Definition set_status (st : ChannelStatus) : M unit := fun s =>
  (Return tt, {| _status := st; trace := trace s |}).

Definition get_status : M ChannelStatus := fun s => (Return (_status s), s).

(** What a coroutine added to the record. *)
Definition emitted {A} (m : M A) (s : state) : history :=
  drop (length (trace s)) (trace (m s).2).

(** ** Collaborators *)

(** What [getattr(cluster, name)] can find.  A callable either accepts
    the assignment [command.__name__ = name] (plain functions and the
    [functools.partial] objects zigpy builds for cluster commands do) or
    rejects it with [AttributeError] (bound methods do). *)
Inductive cluster_attr :=
| Callable (accepts_name : bool)
           (call : history -> list pyval -> list (string * pyval) ->
                   outcome pyval)
| NotCallable (v : pyval).

Module Cluster.
Record t := {
  cluster_id : Z;
  ep_attribute : string;
  is_server : bool;
  (** attribute id -> (name, type name) *)
  attributes : gmap Z (string * string);
  (** command id -> (name, schema, is_reply); may be [None] *)
  server_commands : option (gmap Z (string * list string * bool));
  (** the object's remaining attributes, by name *)
  getattr : string -> option cluster_attr;
  (** the answers of the three coroutines of the cluster *)
  bind : history -> outcome (list pyval);
  configure_reporting :
    history -> attr_ref -> Z -> Z -> Z -> option Z -> outcome pyval;
  read_attributes :
    history -> list attr_ref -> bool -> bool -> option Z ->
    outcome (list (attr_ref * pyval))
}.
End Cluster.

Module ChannelPool.
Record t := {
  id : string;
  unique_id : string;
  nwk : Z;
  manufacturer_code : option Z;
  skip_configuration : bool
}.
End ChannelPool.

(** Truth value of an optional integer: [None] and [0] are false. *)
Definition truthy (c : option Z) : bool :=
  match c with
  | Some z => negb (z =? 0)
  | None => false
  end.

(** ** Constants of [..const] and helpers of [..helpers] *)

(** Modelled from the spec: the constant [SIGNAL_ATTR_UPDATED] of
    [..const] is not in the source tree; the signal is named
    [{uniqueId}_attribute_updated]. *)
Definition SIGNAL_ATTR_UPDATED : string := "attribute_updated".

(** [logging.DEBUG] *)
Definition DEBUG : Z := 10.

(** Modelled from the spec: [LogMixin.debug] of [..helpers] is not in the
    source tree; it logs at debug level through the [log] method of the
    object, which is passed here. *)
Definition LogMixin_debug (log : Z -> string -> list pyval -> M unit)
    (msg : string) (args : list pyval) : M unit :=
  log DEBUG msg args.

(** Modelled from the spec: [safe_read] of [..helpers] is not in the
    source tree; it reads through the transport's attribute-read
    primitive [readAttributes(ids, allowCache, onlyCache,
    manufacturerCode?)] and gives an empty result when the attributes are
    unavailable. *)
Definition safe_read (cluster : Cluster.t) (attributes : list attr_ref)
    (allow_cache only_cache : bool) (manufacturer : option Z)
    : M (list (attr_ref * pyval)) :=
  try_except
    (await (ReadAttributes attributes allow_cache only_cache manufacturer)
       (fun h => Cluster.read_attributes cluster h attributes allow_cache
                   only_cache manufacturer))
    (fun _ => true)
    (fun _ => mret []).

(** Modelled from the spec: [get_attr_id_by_name] of [..helpers] is not
    in the source tree; it resolves a symbolic attribute name to the
    numeric id the cluster's attribute table gives it, if any. *)
Definition get_attr_id_by_name (cluster : Cluster.t) (attr_name : string)
    : option Z :=
  fst <$> head (filter (fun kv => kv.2.1 = attr_name)
                  (map_to_list (Cluster.attributes cluster))).

(** [random.uniform(a, b)] is [a + (b - a) * random()], with the draw
    [random()] taken in [[0, 1)].  The arithmetic is that of the
    rationals: the rounding of Python's binary floating point is not
    modelled. *)
Definition uniform (a b : Q) (draw : Q) : Q := (a + (b - a) * draw)%Q.

(** [dict.get(key)] on the association list of a result dictionary. *)
Fixpoint dict_get (d : list (attr_ref * pyval)) (key : attr_ref)
    : option pyval :=
  match d with
  | [] => None
  | (k, v) :: d' => if decide (k = key) then Some v else dict_get d' key
  end.

(** [d[key] = value] on a dictionary with string keys: an existing key
    keeps its place and takes the new value, a new key goes last. *)
Fixpoint dict_set (d : list (string * pyval)) (key : string) (value : pyval)
    : list (string * pyval) :=
  match d with
  | [] => [(key, value)]
  | (k, v) :: d' =>
      if String.eqb k key then (k, value) :: d'
      else (k, v) :: dict_set d' key value
  end.

(** A dictionary display [{k1: v1, k2: v2, ...}]. *)
Definition dict_literal (items : list (string * pyval))
    : list (string * pyval) :=
  foldl (fun d kv => dict_set d kv.1 kv.2) [] items.

(** [f"{n:04x}"]: lower-case hexadecimal, padded with zeros to four
    characters, the sign counting as one of them. *)
Definition hex_digits (n : N) : string :=
  match n with
  | N0 => "0"
  | _ => HexadecimalString.NilZero.string_of_uint (N.to_hex_uint n)
  end.

Fixpoint zeros (n : nat) : string :=
  match n with
  | O => ""
  | S n' => "0" +:+ zeros n'
  end.

Definition zero_pad (width : nat) (s : string) : string :=
  zeros (width - String.length s) +:+ s.

Definition format_04x (z : Z) : string :=
  if z <? 0 then "-" +:+ zero_pad 3 (hex_digits (Z.to_N (- z)))
  else zero_pad 4 (hex_digits (Z.to_N z)).

(** [s.replace(old, new)] for one-character [old] and [new]. *)
Fixpoint replace_char (old new : Ascii.ascii) (s : string) : string :=
  match s with
  | EmptyString => EmptyString
  | String c s' =>
      String (if Ascii.eqb c old then new else c) (replace_char old new s')
  end.

(** ** Logging mixin *)

(** The classes of the module inherit [debug] from [LogMixin] and supply
    [log]. *)
Class LogMixin (T : Type) := log : T -> Z -> string -> list pyval -> M unit.

Definition debug {T} `{LogMixin T} (self : T) (msg : string)
    (args : list pyval) : M unit :=
  LogMixin_debug (log self) msg args.

(** ** Command guard *)

(** A callable as [decorate_command] receives it.  Its [__name__] may be
    missing ([functools.partial] objects have none until one is assigned);
    [__getattr__] assigns it before wrapping. *)
Record command := {
  __name__ : option string;
  call : history -> list pyval -> list (string * pyval) -> outcome pyval
}.

(** [command.__name__] *)
Definition read_name (command : command) : M string :=
  match __name__ command with
  | Some name => mret name
  | None => raise (AttributeError "object has no attribute '__name__'")
  end.

Definition wrapper := list pyval -> list (string * pyval) -> M pyval.

Definition decorate_command {T} `{LogMixin T} (channel : T)
    (command : command) : wrapper :=
  fun args kwds =>
    try_except
      (result ← await (CommandCall (__name__ command) args kwds)
                  (fun h => call command h args kwds);
       name ← read_name command;
       debug channel
         "executed '%s' command with args: '%s' kwargs: '%s' result: %s"
         [PStr name; PList args; PDict kwds; result];;
       mret result)
      delivery_or_timeout
      (fun ex =>
         name ← read_name command;
         debug channel "command failed: %s exception: %s"
           [PStr name; PStr (str_exn ex)];;
         mret (PExn ex)).

(** ** ZigbeeChannel *)

(** One entry of [REPORT_CONFIG]: [{"attr": ..., "config": (min, max,
    change)}]. *)
Record report_entry := {
  attr : attr_ref;
  config : Z * Z * Z
}.

(** What attribute lookup on a channel gives: a member of the channel
    itself, or a guarded cluster command. *)
Inductive attribute :=
| Member (name : string)
| GuardedCommand (w : wrapper).

(** [res[0]] on a sequence. *)
Definition item0 {A} (res : list A) : M A :=
  match res with
  | x :: _ => mret x
  | [] => raise (IndexError "list index out of range")
  end.

Module ZigbeeChannel.

Record t := {
  _channel_name : string;
  _ch_pool : ChannelPool.t;
  _generic_id : string;
  _cluster : Cluster.t;
  _id : string;
  _unique_id : string;
  _report_config : list report_entry
}.

(** [__init__], for a class with the given [CHANNEL_NAME] and
    [REPORT_CONFIG]; [_status] starts as [CREATED] (see [created]). *)
Definition init (CHANNEL_NAME : option string)
    (REPORT_CONFIG : list report_entry)
    (cluster : Cluster.t) (ch_pool : ChannelPool.t) : t :=
  let hex := format_04x (Cluster.cluster_id cluster) in
  {| _channel_name :=
       match CHANNEL_NAME with
       | Some n => if String.eqb n "" then Cluster.ep_attribute cluster
                   else n
       | None => Cluster.ep_attribute cluster
       end;
     _ch_pool := ch_pool;
     _generic_id := "channel_0x" +:+ hex;
     _cluster := cluster;
     _id := ChannelPool.id ch_pool +:+ ":0x" +:+ hex;
     _unique_id :=
       replace_char "-"%char ":"%char (ChannelPool.unique_id ch_pool)
         +:+ ":0x" +:+ hex;
     _report_config := REPORT_CONFIG |}.

Definition created : state := {| _status := CREATED; trace := [] |}.

Definition id := _id.
Definition generic_id := _generic_id.
Definition unique_id := _unique_id.
Definition cluster := _cluster.
Definition name := _channel_name.
Definition status (s : state) : ChannelStatus := _status s.

Global Instance log : LogMixin t := fun self level msg args =>
  emit (Logged level ("[%s:%s]: " +:+ msg)
          (PInt (ChannelPool.nwk (_ch_pool self)) :: PStr (_id self)
             :: args)).

Definition async_send_signal (self : t) (signal : string)
    (args : list pyval) : M unit :=
  emit (SendSignal signal args).

Definition bind (self : t) : M unit :=
  try_except
    (res ← await Bind (Cluster.bind (cluster self));
     res0 ← item0 res;
     debug self "bound '%s' cluster: %s"
       [PStr (Cluster.ep_attribute (cluster self)); res0])
    delivery_or_timeout
    (fun ex =>
       debug self "Failed to bind '%s' cluster: %s"
         [PStr (Cluster.ep_attribute (cluster self)); PStr (str_exn ex)]).

Definition configure_reporting (self : t) (attr : attr_ref)
    (report_config : Z * Z * Z) : M unit :=
  let attr_name :=
    match attr with
    | AttrId z =>
        match Cluster.attributes (cluster self) !! z with
        | Some entry => PStr entry.1
        | None => PInt z
        end
    | AttrName s => PStr s
    end in
  let kwargs :=
    if (Cluster.cluster_id (cluster self) >=? 0xFC00)
       && truthy (ChannelPool.manufacturer_code (_ch_pool self))
    then ChannelPool.manufacturer_code (_ch_pool self)
    else None in
  let '(min_report_int, max_report_int, reportable_change) :=
    report_config in
  try_except
    (res ← await (ConfigureReporting attr min_report_int max_report_int
                    reportable_change kwargs)
             (fun h => Cluster.configure_reporting (cluster self) h attr
                         min_report_int max_report_int reportable_change
                         kwargs);
     debug self
       "reporting '%s' attr on '%s' cluster: %d/%d/%d: Result: '%s'"
       [attr_name; PStr (Cluster.ep_attribute (cluster self));
        PInt min_report_int; PInt max_report_int; PInt reportable_change;
        res])
    delivery_or_timeout
    (fun ex =>
       debug self
         "failed to set reporting for '%s' attr on '%s' cluster: %s"
         [attr_name; PStr (Cluster.ep_attribute (cluster self));
          PStr (str_exn ex)]).

Section Lifecycle.
(** The draws of [random.random()], given what happened so far. *)
Variable random : history -> Q.

(** [await asyncio.sleep(uniform(a, b))] *)
Definition sleep_uniform (a b : Q) : M unit := fun s =>
  emit (Sleep (uniform a b (random (trace s)))) s.

(** The [for report_config in self._report_config] loop. *)
Fixpoint configure_each (self : t) (entries : list report_entry)
    : M unit :=
  match entries with
  | [] => mret tt
  | report_config :: rest =>
      configure_reporting self (attr report_config)
        (config report_config);;
      sleep_uniform (1 # 10) (1 # 2);;
      configure_each self rest
  end.

Definition async_configure (self : t) : M unit :=
  (if negb (ChannelPool.skip_configuration (_ch_pool self)) then
     bind self;;
     (if Cluster.is_server (cluster self)
      then configure_each self (_report_config self)
      else mret tt);;
     debug self "finished channel configuration" []
   else
     debug self "skipping channel configuration" []);;
  set_status CONFIGURED.
End Lifecycle.

Definition async_initialize (self : t) (from_cache : bool) : M unit :=
  debug self "initializing channel: from_cache: %s" [PBool from_cache];;
  set_status INITIALIZED.

Definition cluster_command (self : t) (tsn command_id : Z)
    (args : pyval) : M unit := mret tt.

Definition attribute_updated (self : t) (attrid : Z) (value : pyval)
    : M unit := mret tt.

Definition zdo_command (self : t) (args : list pyval)
    (kwargs : list (string * pyval)) : M unit := mret tt.

Definition zha_send_event (self : t) (command : string) (args : pyval)
    : M unit :=
  emit (ZhaSendEvent {| ev_unique_id := unique_id self;
                        ev_cluster_id := Cluster.cluster_id (cluster self);
                        ev_command := command;
                        ev_args := args |}).

Definition async_update (self : t) : M unit := mret tt.

Definition get_attribute_value (self : t) (attribute : attr_ref)
    (from_cache : bool) : M (option pyval) :=
  let manufacturer_code := ChannelPool.manufacturer_code (_ch_pool self) in
  let manufacturer :=
    if (Cluster.cluster_id (cluster self) >=? 0xFC00)
       && truthy manufacturer_code
    then manufacturer_code
    else None in
  result ← safe_read (_cluster self) [attribute] from_cache from_cache
             manufacturer;
  mret (dict_get result attribute).

Section Lookup.
(** The names ordinary lookup resolves on the channel: its instance
    attributes and the attributes of its class. *)
Variable defined : string -> bool.

(** [self.__getattribute__(name)] *)
Definition __getattribute__ (self : t) (name : string)
    : outcome attribute :=
  if defined name then Return (Member name)
  else Raise (AttributeError
                ("'ZigbeeChannel' object has no attribute '"
                   +:+ name +:+ "'")).

Definition __getattr__ (self : t) (name : string) : outcome attribute :=
  match Cluster.getattr (_cluster self) name with
  | Some (Callable accepts_name call) =>
      if accepts_name then
        Return (GuardedCommand
                  (decorate_command self
                     {| __name__ := Some name; call := call |}))
      else
        Raise (AttributeError
                 "'method' object has no attribute '__name__'")
  | _ => __getattribute__ self name
  end.

(** [getattr(channel, name)]: Python consults [__getattr__] only for
    names ordinary lookup does not resolve. *)
Definition getattr (self : t) (name : string) : outcome attribute :=
  if defined name then __getattribute__ self name
  else __getattr__ self name.
End Lookup.

End ZigbeeChannel.

(** ** Parsing an inbound command *)

(** [parse_and_log_command]: the name the server-command table gives the
    command id, or the id itself when the table lacks it
    ([.get(command_id, [command_id])[0]]); [.get] on a table that is
    [None] raises [AttributeError]. *)
Definition parse_and_log_command (channel : ZigbeeChannel.t)
    (tsn command_id : Z) (args : pyval) : M pyval :=
  cmd ← match Cluster.server_commands (ZigbeeChannel.cluster channel) with
        | Some server_commands =>
            mret (match server_commands !! command_id with
                  | Some entry => PStr entry.1.1
                  | None => PInt command_id
                  end)
        | None =>
            raise (AttributeError
                     "'NoneType' object has no attribute 'get'")
        end;
  debug channel
    "received '%s' command with %s args on cluster_id '%s' tsn '%s'"
    [cmd; args;
     PInt (Cluster.cluster_id (ZigbeeChannel.cluster channel)); PInt tsn];;
  mret cmd.

(** ** AttributeListeningChannel *)

Module AttributeListeningChannel.

Record t := {
  base : ZigbeeChannel.t;
  value_attribute : option Z
}.

(** [__init__]; the class's [REPORT_CONFIG] is
    [[{"attr": 0, "config": REPORT_CONFIG_DEFAULT}]] unless a subclass
    overrides it. *)
Definition init (CHANNEL_NAME : option string)
    (REPORT_CONFIG : list report_entry)
    (cluster : Cluster.t) (ch_pool : ChannelPool.t) : outcome t :=
  let super := ZigbeeChannel.init CHANNEL_NAME REPORT_CONFIG cluster
                 ch_pool in
  match ZigbeeChannel._report_config super with
  | [] => Raise (IndexError "list index out of range")
  | first :: _ =>
      Return {| base := super;
                value_attribute :=
                  match attr first with
                  | AttrName s => get_attr_id_by_name cluster s
                  | AttrId z => Some z
                  end |}
  end.

Definition attribute_updated (self : t) (attrid : Z) (value : pyval)
    : M unit :=
  if decide (Some attrid = value_attribute self) then
    ZigbeeChannel.async_send_signal (base self)
      (ZigbeeChannel.unique_id (base self) +:+ "_"
         +:+ SIGNAL_ATTR_UPDATED)
      [value]
  else mret tt.

Definition async_initialize (self : t) (from_cache : bool) : M unit :=
  first ← item0 (ZigbeeChannel._report_config (base self));
  ZigbeeChannel.get_attribute_value (base self) (attr first) from_cache;;
  ZigbeeChannel.async_initialize (base self) from_cache.

End AttributeListeningChannel.

(** ** ZDOChannel *)

Module ZHADevice.
Record t := {
  ieee : string;
  name : string;
  nwk : Z;
  model : string
}.
End ZHADevice.

Module ZDOChannel.

Record t := {
  name : string;
  _cluster : Cluster.t;
  _zha_device : ZHADevice.t;
  _unique_id : string
}.

(** [__init__]; [CHANNEL_ZDO] is a constant of [..const]. *)
Definition init (CHANNEL_ZDO : string) (cluster : Cluster.t)
    (device : ZHADevice.t) : t :=
  {| name := CHANNEL_ZDO;
     _cluster := cluster;
     _zha_device := device;
     _unique_id :=
       ZHADevice.ieee device +:+ ":" +:+ ZHADevice.name device +:+ "_ZDO" |}.

Definition created : state := {| _status := CREATED; trace := [] |}.

Definition unique_id := _unique_id.
Definition cluster := _cluster.
Definition status (s : state) : ChannelStatus := _status s.

Definition device_announce (self : t) (zigpy_device : pyval) : M unit :=
  mret tt.

Definition permit_duration (self : t) (duration : Z) : M unit := mret tt.

Definition async_initialize (self : t) (from_cache : bool) : M unit :=
  set_status INITIALIZED.

Definition async_configure (self : t) : M unit :=
  set_status CONFIGURED.

Global Instance log : LogMixin t := fun self level msg args =>
  emit (Logged level ("[%s:ZDO](%s): " +:+ msg)
          (PInt (ZHADevice.nwk (_zha_device self))
             :: PStr (ZHADevice.model (_zha_device self)) :: args)).

End ZDOChannel.

(** ** EventRelayChannel *)

Module EventRelayChannel.

Definition t := ZigbeeChannel.t.

(** [__init__] is inherited; [CHANNEL_NAME = CHANNEL_EVENT_RELAY], a
    constant of [..const]. *)
Definition init (CHANNEL_EVENT_RELAY : string) (cluster : Cluster.t)
    (ch_pool : ChannelPool.t) : t :=
  ZigbeeChannel.init (Some CHANNEL_EVENT_RELAY) [] cluster ch_pool.

(** The test [server_commands is not None and
    server_commands.get(command_id) is not None], and the entry
    [server_commands.get(command_id)] the body then reads. *)
Definition cluster_command (self : t) (tsn command_id : Z) (args : pyval)
    : M unit :=
  match Cluster.server_commands (ZigbeeChannel._cluster self) with
  | Some server_commands =>
      match server_commands !! command_id with
      | Some entry => ZigbeeChannel.zha_send_event self entry.1.1 args
      | None => mret tt
      end
  | None => mret tt
  end.

Section Constants.
(** Keys of the event payload, constants of [..const]. *)
Variables ATTR_ATTRIBUTE_ID ATTR_ATTRIBUTE_NAME ATTR_VALUE : string.

Definition attribute_updated (self : t) (attrid : Z) (value : pyval)
    : M unit :=
  ZigbeeChannel.zha_send_event self SIGNAL_ATTR_UPDATED
    (PDict
       (dict_literal
          [(ATTR_ATTRIBUTE_ID, PInt attrid);
           (ATTR_ATTRIBUTE_NAME,
            PStr (match Cluster.attributes (ZigbeeChannel._cluster self)
                          !! attrid with
                  | Some entry => entry.1
                  | None => "Unknown"
                  end));
           (ATTR_VALUE, value)])).
End Constants.

End EventRelayChannel.

(** ** The orchestrator's calls *)

(** The device setup calls the two lifecycle coroutines of a channel; the
    module itself does not say in which order or how often. *)
Inductive lifecycle_call :=
| AsyncConfigure
| AsyncInitialize (from_cache : bool).

(** The status a call leaves when it returns. *)
Definition status_after (c : lifecycle_call) : ChannelStatus :=
  match c with
  | AsyncConfigure => CONFIGURED
  | AsyncInitialize _ => INITIALIZED
  end.

Definition zigbee_call (random : history -> Q) (self : ZigbeeChannel.t)
    (c : lifecycle_call) : M unit :=
  match c with
  | AsyncConfigure => ZigbeeChannel.async_configure random self
  | AsyncInitialize from_cache => ZigbeeChannel.async_initialize self from_cache
  end.

Definition zdo_call (self : ZDOChannel.t) (c : lifecycle_call) : M unit :=
  match c with
  | AsyncConfigure => ZDOChannel.async_configure self
  | AsyncInitialize from_cache => ZDOChannel.async_initialize self from_cache
  end.

(** An attribute-listening channel inherits [async_configure] and
    overrides [async_initialize]. *)
Definition listening_call (random : history -> Q)
    (self : AttributeListeningChannel.t) (c : lifecycle_call) : M unit :=
  match c with
  | AsyncConfigure =>
      ZigbeeChannel.async_configure random
        (AttributeListeningChannel.base self)
  | AsyncInitialize from_cache =>
      AttributeListeningChannel.async_initialize self from_cache
  end.

(** Run the calls one after the other, noting the status each leaves;
    an exception ends the run. *)
Fixpoint run_calls (step : lifecycle_call -> M unit)
    (calls : list lifecycle_call) : M (list ChannelStatus) :=
  match calls with
  | [] => mret []
  | c :: rest =>
      step c;;
      st ← get_status;
      seen ← run_calls step rest;
      mret (st :: seen)
  end.

(** A status sequence regresses when some status is followed by one of a
    smaller value. *)
Fixpoint never_regresses (from : ChannelStatus) (seen : list ChannelStatus)
    : bool :=
  match seen with
  | [] => true
  | st :: rest =>
      (status_value from <=? status_value st) && never_regresses st rest
  end.

(** ** Reading the record *)

(** The manufacturer code a request to the cluster carries, for the two
    requests that can carry one. *)
Definition manufacturer_of (e : event) : option (option Z) :=
  match e with
  | ConfigureReporting _ _ _ _ m => Some m
  | ReadAttributes _ _ _ m => Some m
  | _ => None
  end.

(** The radio requests and pauses of a configuration, without the
    durations of the pauses and without the log lines. *)
Inductive step :=
| BindStep
| ReportStep (attr : attr_ref) (config : Z * Z * Z) (manufacturer : option Z)
| PauseStep.

Definition step_of (e : event) : option step :=
  match e with
  | Bind => Some BindStep
  | ConfigureReporting a mn mx ch m => Some (ReportStep a (mn, mx, ch) m)
  | Sleep _ => Some PauseStep
  | _ => None
  end.

Definition pause_of (e : event) : option Q :=
  match e with
  | Sleep d => Some d
  | _ => None
  end.

(** The steps a configuration goes through after the bind when every
    declared entry is configured, with [m] the manufacturer code of the
    requests: each entry in its turn, a pause after each. *)
Definition reporting_schedule (m : option Z) (entries : list report_entry)
    : list step :=
  flat_map (fun entry => [ReportStep (attr entry) (config entry) m; PauseStep])
    entries.

(** A line of the log. *)
Definition log_line (e : event) : Prop :=
  ∃ level msg args, e = Logged level msg args.

(** The transport fails, if it does, only in the two ways the channel
    contains, and a bind that succeeds answers with a non-empty list. *)
Definition fails_only_by_delivery_or_timeout (c : Cluster.t) : Prop :=
  (∀ h, match Cluster.bind c h with
        | Return res => res ≠ []
        | Raise ex => delivery_or_timeout ex = true
        end) ∧
  (∀ h a mn mx ch m,
     match Cluster.configure_reporting c h a mn mx ch m with
     | Return _ => True
     | Raise ex => delivery_or_timeout ex = true
     end).

(** Whether a run of calls ever asks for [async_configure] on a channel
    that is already [INITIALIZED]. *)
Fixpoint configures_before_initializing (from : ChannelStatus)
    (calls : list lifecycle_call) : bool :=
  match calls with
  | [] => true
  | c :: rest =>
      match from, c with
      | INITIALIZED, AsyncConfigure => false
      | _, _ => configures_before_initializing (status_after c) rest
      end
  end.

(** Reading a string of lower-case hexadecimal digits back as a number. *)
Definition hex_digit_value (c : Ascii.ascii) : option N :=
  let n := Ascii.N_of_ascii c in
  if ((48 <=? n) && (n <=? 57))%N then Some (n - 48)%N
  else if ((97 <=? n) && (n <=? 102))%N then Some (n - 87)%N
  else None.

Fixpoint hex_value_from (acc : N) (s : string) : option N :=
  match s with
  | EmptyString => Some acc
  | String c s' =>
      match hex_digit_value c with
      | Some d => hex_value_from (16 * acc + d)%N s'
      | None => None
      end
  end.

Definition hex_value (s : string) : option N := hex_value_from 0 s.

(** Whether a character occurs in a string. *)
Fixpoint has_char (c : Ascii.ascii) (s : string) : bool :=
  match s with
  | EmptyString => false
  | String c' s' => Ascii.eqb c' c || has_char c s'
  end.

(** A property of the state that a coroutine keeps. *)
Definition preserves {A} (P : state -> Prop) (m : M A) : Prop :=
  ∀ s, P s → P (m s).2.

(** The manufacturer code a channel puts on a request to its cluster. *)
Definition manufacturer_sent (self : ZigbeeChannel.t) : option Z :=
  if (Cluster.cluster_id (ZigbeeChannel._cluster self) >=? 0xFC00)
     && truthy (ChannelPool.manufacturer_code (ZigbeeChannel._ch_pool self))
  then ChannelPool.manufacturer_code (ZigbeeChannel._ch_pool self)
  else None.

(** Every pause in [new], the events that follow the record [before],
    lasts 0.1 + (0.5 - 0.1) * draw, the draw being that of [random()] at
    the moment of the pause, that is, given the record up to it. *)
Fixpoint pauses_drawn (random : history -> Q) (before new : history)
    : Prop :=
  match new with
  | [] => True
  | e :: rest =>
      match e with
      | Sleep d => d = ((1 # 10) + ((1 # 2) - (1 # 10)) * random before)%Q
      | _ => True
      end ∧
      pauses_drawn random (before ++ [e]) rest
  end.

(** The record has grown from [base] by events whose pauses are so
    drawn. *)
Definition paced (random : history -> Q) (base : history) (s : state)
    : Prop :=
  ∃ new, trace s = base ++ new ∧ pauses_drawn random base new.

(** A bound on what a coroutine can raise. *)
Definition raises_only {A} (Q : exn -> Prop) (m : M A) : Prop :=
  ∀ s ex, (m s).1 = Raise ex → Q ex.

(** A log line of a channel is at debug level and starts with the
    [[%s:%s]:] tag filled with the pool's network address and the
    channel's id; other events are not concerned. *)
Definition tagged (self : ZigbeeChannel.t) (e : event) : Prop :=
  match e with
  | Logged level msg args =>
      level = DEBUG ∧
      (∃ text, msg = "[%s:%s]: " +:+ text) ∧
      (∃ rest, args = PInt (ChannelPool.nwk (ZigbeeChannel._ch_pool self))
                        :: PStr (ZigbeeChannel._id self) :: rest)
  | _ => True
  end.

(** The requests a coroutine makes of the cluster, pauses and log lines
    left out. *)
Definition is_request (e : event) : bool :=
  match e with
  | Bind | ConfigureReporting _ _ _ _ _ | ReadAttributes _ _ _ _
  | CommandCall _ _ _ => true
  | _ => false
  end.

(** ** Sample devices *)

Module Samples.

Definition answer_ok : history -> list pyval -> list (string * pyval) ->
                       outcome pyval :=
  fun _ _ _ => Return (PList [PInt 0]).

(** An on/off cluster of a reachable device. *)
Definition on_off : Cluster.t :=
  {| Cluster.cluster_id := 0x0006;
     Cluster.ep_attribute := "on_off";
     Cluster.is_server := true;
     Cluster.attributes := {[ 0 := ("on_off", "Bool") ]};
     Cluster.server_commands := Some {[ 5 := ("toggle", [], false) ]};
     Cluster.getattr := fun name =>
       if String.eqb name "toggle" then Some (Callable true answer_ok)
       else if String.eqb name "read_attributes"
            then Some (Callable false answer_ok)
       else if String.eqb name "endpoint" then Some (NotCallable PNone)
       else None;
     Cluster.bind := fun _ => Return [PInt 0];
     Cluster.configure_reporting := fun _ _ _ _ _ _ =>
       Return (PList [PInt 0]);
     Cluster.read_attributes := fun _ _ _ _ _ => Return [] |}.

(** The same cluster on a device that sleeps: nothing gets through. *)
Definition asleep : Cluster.t :=
  {| Cluster.cluster_id := 0x0006;
     Cluster.ep_attribute := "on_off";
     Cluster.is_server := true;
     Cluster.attributes := {[ 0 := ("on_off", "Bool") ]};
     Cluster.server_commands := None;
     Cluster.getattr := fun name =>
       if String.eqb name "toggle"
       then Some (Callable true (fun _ _ _ => Raise (TimeoutError "")))
       else None;
     Cluster.bind := fun _ => Raise (DeliveryError "message send failure");
     Cluster.configure_reporting := fun _ _ _ _ _ _ =>
       Raise (TimeoutError "");
     Cluster.read_attributes := fun _ _ _ _ _ => Raise (TimeoutError "") |}.

(** A cluster whose radio library fails in some other way. *)
Definition broken : Cluster.t :=
  {| Cluster.cluster_id := 0x0006;
     Cluster.ep_attribute := "on_off";
     Cluster.is_server := true;
     Cluster.attributes := ∅;
     Cluster.server_commands := None;
     Cluster.getattr := fun _ => None;
     Cluster.bind := fun _ => Raise (OtherException "ValueError" "bad frame");
     Cluster.configure_reporting := fun _ _ _ _ _ _ =>
       Return (PList [PInt 0]);
     Cluster.read_attributes := fun _ _ _ _ _ => Return [] |}.

(** A manufacturer-specific cluster. *)
Definition vendor : Cluster.t :=
  {| Cluster.cluster_id := 0xFC10;
     Cluster.ep_attribute := "manufacturer_specific";
     Cluster.is_server := true;
     Cluster.attributes := {[ 0x0020 := ("level", "uint8_t") ]};
     Cluster.server_commands := None;
     Cluster.getattr := fun _ => None;
     Cluster.bind := fun _ => Return [PInt 0];
     Cluster.configure_reporting := fun _ _ _ _ _ _ =>
       Return (PList [PInt 0]);
     Cluster.read_attributes := fun _ _ _ _ _ =>
       Return [(AttrId 0x0020, PInt 42)] |}.

Definition pool : ChannelPool.t :=
  {| ChannelPool.id := "1";
     ChannelPool.unique_id := "00:0d:6f:00:0a:90:69:e7-1";
     ChannelPool.nwk := 0x1234;
     ChannelPool.manufacturer_code := Some 0x115F;
     ChannelPool.skip_configuration := false |}.

Definition skipping_pool : ChannelPool.t :=
  {| ChannelPool.id := "1";
     ChannelPool.unique_id := "00:0d:6f:00:0a:90:69:e7-1";
     ChannelPool.nwk := 0x1234;
     ChannelPool.manufacturer_code := None;
     ChannelPool.skip_configuration := true |}.

Definition entries : list report_entry :=
  [ {| attr := AttrId 0x0020; config := (30, 900, 1) |};
    {| attr := AttrName "level"; config := (1, 60, 5) |} ].

Definition channel (c : Cluster.t) : ZigbeeChannel.t :=
  ZigbeeChannel.init None entries c pool.

Definition skipped : ZigbeeChannel.t :=
  ZigbeeChannel.init None entries on_off skipping_pool.

Definition relay : EventRelayChannel.t :=
  EventRelayChannel.init "event_relay" on_off pool.

Definition zdo : ZDOChannel.t :=
  ZDOChannel.init "zdo" on_off
    {| ZHADevice.ieee := "00:0d:6f:00:0a:90:69:e7";
       ZHADevice.name := "LUMI lumi.sensor";
       ZHADevice.nwk := 0x1234;
       ZHADevice.model := "lumi.sensor" |}.

(** The names ordinary lookup resolves on a [ZigbeeChannel]. *)
Definition defined (name : string) : bool :=
  bool_decide (name ∈ ["id"; "generic_id"; "unique_id"; "cluster"; "name";
                       "status"; "async_send_signal"; "bind";
                       "configure_reporting"; "async_configure";
                       "async_initialize"; "cluster_command";
                       "attribute_updated"; "zdo_command";
                       "zha_send_event"; "async_update";
                       "get_attribute_value"; "log"; "debug"; "info";
                       "warning"; "error"; "CHANNEL_NAME"; "REPORT_CONFIG";
                       "_channel_name"; "_ch_pool"; "_generic_id";
                       "_cluster"; "_id"; "_unique_id"; "_report_config";
                       "_status"]).

(** Draws of [random.random()]: 1/2, 1/3, 1/4, ... as the record
    grows. *)
Definition random : history -> Q :=
  fun h => 1 # (Pos.of_succ_nat (S (length h))).

Definition listening : AttributeListeningChannel.t :=
  {| AttributeListeningChannel.base := channel vendor;
     AttributeListeningChannel.value_attribute := Some 0x0020 |}.

End Samples.

(** * Properties *)

(** ** The record only grows *)

Lemma emitted_extension {A} (m : M A) (s : state) (new : history) :
  trace (m s).2 = trace s ++ new → emitted m s = new.
Proof.
  intros Heq. unfold emitted. rewrite Heq. apply drop_app_length.
Qed.

Lemma debug_zigbee (self : ZigbeeChannel.t) msg args s :
  debug self msg args s =
    (Return tt,
     {| _status := _status s;
        trace := trace s ++
          [Logged DEBUG ("[%s:%s]: " +:+ msg)
             (PInt (ChannelPool.nwk (ZigbeeChannel._ch_pool self))
                :: PStr (ZigbeeChannel._id self) :: args)] |}).
Proof. reflexivity. Qed.

(** ** Command guard *)

(** C2, as the code behaves.  For a command that carries a [__name__],
    as every command [__getattr__] wraps does, the guarded command returns
    the result of the cluster command unchanged when the call succeeds,
    returns the exception object itself when the call raises a
    [DeliveryError] or a [TimeoutError], and lets an exception of any
    other class through as it is. *)
Theorem decorate_command_outcome (channel : ZigbeeChannel.t)
    (cmd : command) (name : string) (args : list pyval)
    (kwds : list (string * pyval)) (s : state) :
  __name__ cmd = Some name →
  (decorate_command channel cmd args kwds s).1 =
    match call cmd (trace s) args kwds with
    | Return result => Return result
    | Raise (DeliveryError msg) => Return (PExn (DeliveryError msg))
    | Raise (TimeoutError msg) => Return (PExn (TimeoutError msg))
    | Raise (IndexError msg) => Raise (IndexError msg)
    | Raise (AttributeError msg) => Raise (AttributeError msg)
    | Raise (OtherException cls msg) => Raise (OtherException cls msg)
    end.
Proof.
  intros Hname.
  unfold decorate_command, try_except, await, read_name, mbind, M_bind.
  rewrite Hname.
  destruct (call cmd (trace s) args kwds) as [result | []]; reflexivity.
Qed.

Lemma decorate_command_outcome_sample :
  (decorate_command (Samples.channel Samples.on_off)
     {| __name__ := Some "toggle"; call := Samples.answer_ok |} [] []
     ZigbeeChannel.created).1 = Return (PList [PInt 0]) ∧
  (decorate_command (Samples.channel Samples.asleep)
     {| __name__ := Some "toggle";
        call := fun _ _ _ => Raise (TimeoutError "late") |} [] []
     ZigbeeChannel.created).1 = Return (PExn (TimeoutError "late")) ∧
  (decorate_command (Samples.channel Samples.asleep)
     {| __name__ := Some "toggle";
        call := fun _ _ _ => Raise (DeliveryError "no route") |} [] []
     ZigbeeChannel.created).1 = Return (PExn (DeliveryError "no route")) ∧
  (decorate_command (Samples.channel Samples.on_off)
     {| __name__ := Some "toggle";
        call := fun _ _ _ => Raise (OtherException "ValueError" "bad") |}
     [] [] ZigbeeChannel.created).1
    = Raise (OtherException "ValueError" "bad").
Proof.
  split; [| split; [| split]].
  - apply (decorate_command_outcome (Samples.channel Samples.on_off)
             {| __name__ := Some "toggle"; call := Samples.answer_ok |}
             "toggle" [] [] ZigbeeChannel.created eq_refl).
  - apply (decorate_command_outcome (Samples.channel Samples.asleep)
             {| __name__ := Some "toggle";
                call := fun _ _ _ => Raise (TimeoutError "late") |}
             "toggle" [] [] ZigbeeChannel.created eq_refl).
  - apply (decorate_command_outcome (Samples.channel Samples.asleep)
             {| __name__ := Some "toggle";
                call := fun _ _ _ => Raise (DeliveryError "no route") |}
             "toggle" [] [] ZigbeeChannel.created eq_refl).
  - apply (decorate_command_outcome (Samples.channel Samples.on_off)
             {| __name__ := Some "toggle";
                call := fun _ _ _ =>
                  Raise (OtherException "ValueError" "bad") |}
             "toggle" [] [] ZigbeeChannel.created eq_refl).
Defined.

(** C2 as the specification states it, for every callable, fails: a
    callable without a [__name__] that succeeds makes the guarded command
    raise [AttributeError] when the result is about to be logged, and one
    that times out makes it raise [AttributeError] from the handler
    instead of returning the timeout. *)
Lemma decorate_command_nameless_raises :
  (decorate_command (Samples.channel Samples.on_off)
     {| __name__ := None; call := Samples.answer_ok |} [] []
     ZigbeeChannel.created).1
    = Raise (AttributeError "object has no attribute '__name__'") ∧
  (decorate_command (Samples.channel Samples.asleep)
     {| __name__ := None;
        call := fun _ _ _ => Raise (TimeoutError "late") |} [] []
     ZigbeeChannel.created).1
    = Raise (AttributeError "object has no attribute '__name__'").
Proof. split; reflexivity. Qed.

Example decorate_command_success :
  (decorate_command (Samples.channel Samples.on_off)
     {| __name__ := Some "toggle"; call := Samples.answer_ok |} [] []
     ZigbeeChannel.created).1 = Return (PList [PInt 0]).
Proof. reflexivity. Qed.

Example decorate_command_timeout :
  decorate_command (Samples.channel Samples.asleep)
    {| __name__ := Some "toggle"; call := fun _ _ _ => Raise (TimeoutError "") |}
    [PInt 1] [] ZigbeeChannel.created
  = (Return (PExn (TimeoutError "")),
     {| _status := CREATED;
        trace :=
          [CommandCall (Some "toggle") [PInt 1] [];
           Logged DEBUG "[%s:%s]: command failed: %s exception: %s"
             [PInt 0x1234; PStr "1:0x0006"; PStr "toggle"; PStr ""]] |}).
Proof. reflexivity. Qed.

Example decorate_command_other_exception :
  (decorate_command (Samples.channel Samples.on_off)
     {| __name__ := Some "toggle";
        call := fun _ _ _ => Raise (OtherException "ValueError" "bad") |}
     [] [] ZigbeeChannel.created).1
  = Raise (OtherException "ValueError" "bad").
Proof. reflexivity. Qed.

(** ** Dynamic command forwarding *)

(** What lookup of a name the channel does not define comes to, case by
    case on what the cluster has under that name. *)
Lemma getattr_undefined (defined : string -> bool) (self : ZigbeeChannel.t)
    (name : string) :
  defined name = false →
  ZigbeeChannel.getattr defined self name =
    match Cluster.getattr (ZigbeeChannel._cluster self) name with
    | Some (Callable true call) =>
        Return (GuardedCommand
                  (decorate_command self {| __name__ := Some name; call := call |}))
    | Some (Callable false _) =>
        Raise (AttributeError "'method' object has no attribute '__name__'")
    | Some (NotCallable _) | None =>
        Raise (AttributeError
                 ("'ZigbeeChannel' object has no attribute '"
                    +:+ name +:+ "'"))
    end.
Proof.
  intros Hundef.
  unfold ZigbeeChannel.getattr, ZigbeeChannel.__getattr__,
    ZigbeeChannel.__getattribute__.
  rewrite Hundef.
  destruct (Cluster.getattr _ name) as [[[] call | v] |]; reflexivity.
Qed.

(** A forwarded command that the cluster lets be renamed is guarded: a
    timeout of the cluster command comes back as the value. *)
Lemma getattr_guarded_timeout (defined : string -> bool)
    (self : ZigbeeChannel.t) (name : string) call w args kwds s msg :
  defined name = false →
  Cluster.getattr (ZigbeeChannel._cluster self) name
    = Some (Callable true call) →
  ZigbeeChannel.getattr defined self name = Return (GuardedCommand w) →
  call (trace s) args kwds = Raise (TimeoutError msg) →
  (w args kwds s).1 = Return (PExn (TimeoutError msg)).
Proof.
  intros Hundef Hcall Hget Htimeout.
  rewrite (getattr_undefined _ _ _ Hundef), Hcall in Hget.
  injection Hget as <-.
  unfold decorate_command, try_except, await, mbind, M_bind; simpl.
  rewrite Htimeout. reflexivity.
Qed.

(** C3. On a channel of the sample on/off cluster, [read_attributes] is
    not a member of the channel and is a callable attribute of the
    cluster, a bound method; looking it up on the channel does not give a
    guarded command: the assignment of [__name__] raises
    [AttributeError]. *)
Theorem getattr_bound_method_raises :
  Samples.defined "read_attributes" = false ∧
  (∃ call, Cluster.getattr Samples.on_off "read_attributes"
             = Some (Callable false call)) ∧
  ZigbeeChannel.getattr Samples.defined (Samples.channel Samples.on_off)
      "read_attributes"
    = Raise (AttributeError "'method' object has no attribute '__name__'").
Proof.
  split; [reflexivity |]. split; [eexists; reflexivity | reflexivity].
Qed.

(** ** Skipping configuration *)

Lemma async_configure_skip_run (random : history -> Q)
    (self : ZigbeeChannel.t) (s : state) :
  ChannelPool.skip_configuration (ZigbeeChannel._ch_pool self) = true →
  ZigbeeChannel.async_configure random self s =
    (Return tt,
     {| _status := CONFIGURED;
        trace := trace s ++
          [Logged DEBUG "[%s:%s]: skipping channel configuration"
             [PInt (ChannelPool.nwk (ZigbeeChannel._ch_pool self));
              PStr (ZigbeeChannel._id self)]] |}).
Proof.
  intros Hskip. unfold ZigbeeChannel.async_configure. rewrite Hskip.
  reflexivity.
Qed.

(** C5. When the pool skips configuration, [async_configure] asks nothing
    of the cluster (no bind, no reporting configuration, no pause: it only
    logs), returns normally and leaves the status [CONFIGURED]. *)
Theorem async_configure_skip (random : history -> Q)
    (self : ZigbeeChannel.t) (s : state) :
  ChannelPool.skip_configuration (ZigbeeChannel._ch_pool self) = true →
  (ZigbeeChannel.async_configure random self s).1 = Return tt ∧
  _status (ZigbeeChannel.async_configure random self s).2 = CONFIGURED ∧
  emitted (ZigbeeChannel.async_configure random self) s =
    [Logged DEBUG "[%s:%s]: skipping channel configuration"
       [PInt (ChannelPool.nwk (ZigbeeChannel._ch_pool self));
        PStr (ZigbeeChannel._id self)]] ∧
  omap step_of (emitted (ZigbeeChannel.async_configure random self) s) = [].
Proof.
  intros Hskip.
  assert (Hrun := async_configure_skip_run random self s Hskip).
  assert (Hnew := emitted_extension
            (ZigbeeChannel.async_configure random self) s _
            (f_equal (fun r => trace r.2) Hrun)).
  rewrite Hnew, Hrun. repeat split.
Qed.

Lemma async_configure_skip_sample :
  (ZigbeeChannel.async_configure Samples.random Samples.skipped
     ZigbeeChannel.created).1 = Return tt ∧
  _status (ZigbeeChannel.async_configure Samples.random Samples.skipped
             ZigbeeChannel.created).2 = CONFIGURED ∧
  omap step_of
    (emitted (ZigbeeChannel.async_configure Samples.random Samples.skipped)
       ZigbeeChannel.created) = [].
Proof.
  destruct (async_configure_skip Samples.random Samples.skipped
              ZigbeeChannel.created eq_refl) as (Hret & Hst & _ & Hnone).
  exact (conj Hret (conj Hst Hnone)).
Defined.

(** ** Inbound frames *)

Example listening_init_by_name :
  AttributeListeningChannel.value_attribute
    <$> (match AttributeListeningChannel.init None
                 [ {| attr := AttrName "level"; config := (1, 60, 5) |} ]
                 Samples.vendor Samples.pool with
         | Return ch => Some ch
         | Raise _ => None
         end)
  = Some (Some 0x0020).
Proof. reflexivity. Qed.

(** C8. An attribute-listening channel answers an attribute update with
    exactly one signal, named [{unique_id}_attribute_updated] and carrying
    the value, when the attribute is the one it watches, and with nothing
    at all otherwise. *)
Theorem attribute_updated_signal (self : AttributeListeningChannel.t)
    (attrid : Z) (value : pyval) (s : state) :
  (AttributeListeningChannel.value_attribute self = Some attrid →
   emitted (AttributeListeningChannel.attribute_updated self attrid value) s
     = [SendSignal
          (ZigbeeChannel.unique_id (AttributeListeningChannel.base self)
             +:+ "_attribute_updated")
          [value]]) ∧
  (AttributeListeningChannel.value_attribute self ≠ Some attrid →
   emitted (AttributeListeningChannel.attribute_updated self attrid value) s
     = []) ∧
  (AttributeListeningChannel.attribute_updated self attrid value s).1
    = Return tt.
Proof.
  unfold AttributeListeningChannel.attribute_updated.
  repeat split.
  - intros Hwatch. apply emitted_extension.
    rewrite decide_True by done. reflexivity.
  - intros Hother. apply emitted_extension.
    rewrite decide_False by congruence. simpl. by rewrite app_nil_r.
  - case_decide; reflexivity.
Qed.

Lemma attribute_updated_signal_sample :
  emitted (AttributeListeningChannel.attribute_updated Samples.listening
             0x0020 (PInt 42)) ZigbeeChannel.created
    = [SendSignal "00:0d:6f:00:0a:90:69:e7:1:0xfc10_attribute_updated"
         [PInt 42]] ∧
  emitted (AttributeListeningChannel.attribute_updated Samples.listening
             0x0021 (PInt 99)) ZigbeeChannel.created = [].
Proof.
  split.
  - apply (attribute_updated_signal Samples.listening 0x0020 (PInt 42)
             ZigbeeChannel.created). reflexivity.
  - apply (attribute_updated_signal Samples.listening 0x0021 (PInt 99)
             ZigbeeChannel.created). discriminate.
Defined.

(** C9. An event-relay channel whose cluster has a server-command table
    answers a cluster command with exactly one event, carrying the name
    the table gives the command id and the arguments, when the table has
    the id, and with nothing, and no error, when it has not. *)
Theorem cluster_command_relay (self : EventRelayChannel.t)
    (server_commands : gmap Z (string * list string * bool))
    (tsn command_id : Z) (args : pyval) (s : state) :
  Cluster.server_commands (ZigbeeChannel._cluster self)
    = Some server_commands →
  (∀ name schema is_reply,
     server_commands !! command_id = Some (name, schema, is_reply) →
     emitted (EventRelayChannel.cluster_command self tsn command_id args) s
       = [ZhaSendEvent
            {| ev_unique_id := ZigbeeChannel.unique_id self;
               ev_cluster_id :=
                 Cluster.cluster_id (ZigbeeChannel._cluster self);
               ev_command := name;
               ev_args := args |}]) ∧
  (server_commands !! command_id = None →
   emitted (EventRelayChannel.cluster_command self tsn command_id args) s
     = []) ∧
  (EventRelayChannel.cluster_command self tsn command_id args s).1
    = Return tt.
Proof.
  intros Htable. unfold EventRelayChannel.cluster_command. rewrite Htable.
  repeat split.
  - intros name schema is_reply Hentry. rewrite Hentry.
    apply emitted_extension. reflexivity.
  - intros Habsent. rewrite Habsent.
    apply emitted_extension. simpl. by rewrite app_nil_r.
  - destruct (server_commands !! command_id); reflexivity.
Qed.

Lemma cluster_command_relay_sample :
  emitted (EventRelayChannel.cluster_command Samples.relay 1 5
             (PList [PInt 7])) ZigbeeChannel.created
    = [ZhaSendEvent
         {| ev_unique_id := "00:0d:6f:00:0a:90:69:e7:1:0x0006";
            ev_cluster_id := 6;
            ev_command := "toggle";
            ev_args := PList [PInt 7] |}] ∧
  emitted (EventRelayChannel.cluster_command Samples.relay 1 9
             (PList [PInt 7])) ZigbeeChannel.created = [].
Proof.
  destruct (cluster_command_relay Samples.relay
              {[ 5 := ("toggle", [], false) ]} 1 5 (PList [PInt 7])
              ZigbeeChannel.created eq_refl) as (Hknown & _ & _).
  destruct (cluster_command_relay Samples.relay
              {[ 5 := ("toggle", [], false) ]} 1 9 (PList [PInt 7])
              ZigbeeChannel.created eq_refl) as (_ & Hunknown & _).
  split.
  - apply (Hknown "toggle" [] false). reflexivity.
  - apply Hunknown. reflexivity.
Defined.

(** C10. An event-relay channel whose cluster has no server-command table
    at all ([None]) answers a cluster command with nothing: no event, no
    exception, the state as it was. *)
Theorem cluster_command_no_table (self : EventRelayChannel.t)
    (tsn command_id : Z) (args : pyval) (s : state) :
  Cluster.server_commands (ZigbeeChannel._cluster self) = None →
  EventRelayChannel.cluster_command self tsn command_id args s
    = (Return tt, s) ∧
  emitted (EventRelayChannel.cluster_command self tsn command_id args) s
    = [].
Proof.
  intros Hnone. unfold EventRelayChannel.cluster_command. rewrite Hnone.
  split; [reflexivity |].
  apply emitted_extension. simpl. by rewrite app_nil_r.
Qed.

Lemma cluster_command_no_table_sample :
  EventRelayChannel.cluster_command (Samples.channel Samples.asleep) 1 5
      (PList [PInt 7]) ZigbeeChannel.created
    = (Return tt, ZigbeeChannel.created).
Proof.
  apply (cluster_command_no_table (Samples.channel Samples.asleep) 1 5
           (PList [PInt 7]) ZigbeeChannel.created eq_refl).
Defined.

(** ** Requests to the cluster, one by one *)

Lemma log_lines_no_step (log : history) :
  Forall log_line log → omap step_of log = [].
Proof.
  induction 1 as [| e log (level & msg & args & ->) _ IH]; [done |].
  simpl. exact IH.
Qed.

Lemma log_lines_no_manufacturer (log : history) :
  Forall log_line log → omap manufacturer_of log = [].
Proof.
  induction 1 as [| e log (level & msg & args & ->) _ IH]; [done |].
  simpl. exact IH.
Qed.

Lemma log_lines_no_pause (log : history) :
  Forall log_line log → omap pause_of log = [].
Proof.
  induction 1 as [| e log (level & msg & args & ->) _ IH]; [done |].
  simpl. exact IH.
Qed.

Lemma logged_line level msg args : log_line (Logged level msg args).
Proof. by exists level, msg, args. Qed.

#[local] Hint Resolve logged_line : core.

(** The rule that decides the manufacturer code of a request. *)
Lemma manufacturer_rule (cluster_id : Z) (manufacturer_code : option Z)
    (code : Z) :
  (if (cluster_id >=? 0xFC00) && truthy manufacturer_code
   then manufacturer_code else None) = Some code
  ↔ 0xFC00 ≤ cluster_id ∧ manufacturer_code = Some code ∧ code ≠ 0.
Proof.
  unfold truthy.
  destruct (Z.geb_spec cluster_id 0xFC00) as [Hge | Hlt]; simpl.
  - destruct manufacturer_code as [c |]; simpl.
    + destruct (Z.eqb_spec c 0) as [-> | Hnz]; simpl.
      * split; [discriminate | intros (_ & [= <-] & Hnz); done].
      * split; [intros [= <-]; done | intros (_ & Heq & _); done].
    + split; [discriminate | intros (_ & Heq & _); done].
  - split; [discriminate | intros (Hge & _); lia].
Qed.

(** [bind]: one request, then at most log lines; the status stays. *)
Lemma bind_run (self : ZigbeeChannel.t) (s : state) :
  ∃ log,
    trace (ZigbeeChannel.bind self s).2 = trace s ++ Bind :: log ∧
    Forall log_line log ∧
    _status (ZigbeeChannel.bind self s).2 = _status s ∧
    (ZigbeeChannel.bind self s).1 =
      match Cluster.bind (ZigbeeChannel._cluster self) (trace s) with
      | Return [] => Raise (IndexError "list index out of range")
      | Return (_ :: _) => Return tt
      | Raise ex => if delivery_or_timeout ex then Return tt else Raise ex
      end.
Proof.
  unfold ZigbeeChannel.bind, try_except, await, mbind, M_bind,
    ZigbeeChannel.cluster.
  destruct (Cluster.bind _ (trace s)) as [[| res0 res] | ex]; simpl.
  - exists []. by rewrite Forall_nil.
  - eexists [_]. rewrite <- app_assoc. repeat split.
    apply Forall_singleton. auto.
  - destruct (delivery_or_timeout ex); simpl.
    + eexists [_]. rewrite <- app_assoc. repeat split.
      apply Forall_singleton. auto.
    + exists []. by rewrite Forall_nil.
Qed.

(** [configure_reporting]: one request, then at most log lines; the
    status stays. *)
Lemma configure_reporting_run (self : ZigbeeChannel.t) (attr : attr_ref)
    (mn mx ch : Z) (s : state) :
  ∃ m log,
    trace (ZigbeeChannel.configure_reporting self attr (mn, mx, ch) s).2
      = trace s ++ ConfigureReporting attr mn mx ch m :: log ∧
    Forall log_line log ∧
    _status (ZigbeeChannel.configure_reporting self attr (mn, mx, ch) s).2
      = _status s ∧
    m = (if (Cluster.cluster_id (ZigbeeChannel._cluster self) >=? 0xFC00)
            && truthy (ChannelPool.manufacturer_code
                         (ZigbeeChannel._ch_pool self))
         then ChannelPool.manufacturer_code (ZigbeeChannel._ch_pool self)
         else None) ∧
    (ZigbeeChannel.configure_reporting self attr (mn, mx, ch) s).1 =
      match Cluster.configure_reporting (ZigbeeChannel._cluster self)
              (trace s) attr mn mx ch m with
      | Return _ => Return tt
      | Raise ex => if delivery_or_timeout ex then Return tt else Raise ex
      end.
Proof.
  unfold ZigbeeChannel.configure_reporting, try_except, await, mbind,
    M_bind, ZigbeeChannel.cluster.
  eexists.
  destruct (Cluster.configure_reporting _ (trace s) attr mn mx ch _)
    as [res | ex] eqn:Hanswer; simpl.
  - eexists [_]. rewrite <- app_assoc. split; [reflexivity |].
    split; [apply Forall_singleton; auto |]. split; [reflexivity |].
    split; [reflexivity |].
    rewrite Hanswer. reflexivity.
  - destruct (delivery_or_timeout ex) eqn:Hclass; simpl.
    + eexists [_]. rewrite <- app_assoc. split; [reflexivity |].
      split; [apply Forall_singleton; auto |]. split; [reflexivity |].
      split; [reflexivity |].
      rewrite Hanswer, Hclass. reflexivity.
    + exists []. split; [reflexivity |].
      split; [apply Forall_nil; auto |]. split; [reflexivity |].
      split; [reflexivity |].
      rewrite Hanswer, Hclass. reflexivity.
Qed.

(** ** Failure containment *)

(** C4. When the cluster's [bind] or [configure_reporting] raises a
    delivery failure or a timeout, the channel's [bind] and
    [configure_reporting] return normally: the exception is caught and
    logged, the status stays. *)
Theorem bind_and_configure_reporting_contain (self : ZigbeeChannel.t)
    (attr : attr_ref) (mn mx ch : Z) (s : state) (ex : exn) :
  delivery_or_timeout ex = true →
  (Cluster.bind (ZigbeeChannel._cluster self) (trace s) = Raise ex →
   ZigbeeChannel.bind self s =
     (Return tt,
      {| _status := _status s;
         trace := trace s ++
           [Bind;
            Logged DEBUG "[%s:%s]: Failed to bind '%s' cluster: %s"
              [PInt (ChannelPool.nwk (ZigbeeChannel._ch_pool self));
               PStr (ZigbeeChannel._id self);
               PStr (Cluster.ep_attribute (ZigbeeChannel._cluster self));
               PStr (str_exn ex)]] |})) ∧
  (Cluster.configure_reporting (ZigbeeChannel._cluster self)
     (trace s) attr mn mx ch (manufacturer_sent self) = Raise ex →
   (ZigbeeChannel.configure_reporting self attr (mn, mx, ch) s).1
     = Return tt ∧
   _status (ZigbeeChannel.configure_reporting self attr (mn, mx, ch) s).2
     = _status s ∧
   ∃ args,
     emitted (ZigbeeChannel.configure_reporting self attr (mn, mx, ch)) s =
       [ConfigureReporting attr mn mx ch (manufacturer_sent self);
        Logged DEBUG
          "[%s:%s]: failed to set reporting for '%s' attr on '%s' cluster: %s"
          args]).
Proof.
  intros Hclass. split.
  - intros Hanswer.
    unfold ZigbeeChannel.bind, try_except, await, mbind, M_bind,
      ZigbeeChannel.cluster.
    rewrite Hanswer; simpl. rewrite Hclass, debug_zigbee; simpl.
    by rewrite <- app_assoc.
  - intros Hanswer.
    assert (Hrun : ∃ args,
              ZigbeeChannel.configure_reporting self attr (mn, mx, ch) s =
                (Return tt,
                 {| _status := _status s;
                    trace := trace s ++
                      [ConfigureReporting attr mn mx ch
                         (manufacturer_sent self);
                       Logged DEBUG
                         "[%s:%s]: failed to set reporting for '%s' attr on '%s' cluster: %s"
                         args] |})).
    { unfold manufacturer_sent in *.
      unfold ZigbeeChannel.configure_reporting, try_except, await, mbind,
        M_bind, ZigbeeChannel.cluster.
      rewrite Hanswer; simpl. rewrite Hclass, debug_zigbee; simpl.
      eexists. rewrite <- app_assoc. reflexivity. }
    destruct Hrun as (args & Hrun).
    split; [by rewrite Hrun |]. split; [by rewrite Hrun |].
    exists args. apply emitted_extension. by rewrite Hrun.
Qed.

Lemma bind_and_configure_reporting_contain_sample :
  (ZigbeeChannel.bind (Samples.channel Samples.asleep)
     ZigbeeChannel.created).1 = Return tt ∧
  (ZigbeeChannel.configure_reporting (Samples.channel Samples.asleep)
     (AttrId 0) (30, 900, 1) ZigbeeChannel.created).1 = Return tt.
Proof.
  split.
  - destruct (bind_and_configure_reporting_contain
                (Samples.channel Samples.asleep) (AttrId 0) 30 900 1
                ZigbeeChannel.created (DeliveryError "message send failure")
                eq_refl) as [Hbind _].
    rewrite (Hbind eq_refl). reflexivity.
  - destruct (bind_and_configure_reporting_contain
                (Samples.channel Samples.asleep) (AttrId 0) 30 900 1
                ZigbeeChannel.created (TimeoutError "")
                eq_refl) as [_ Hreport].
    apply (Hreport eq_refl).
Defined.

(** ** Manufacturer code *)

(** C7. [configure_reporting] and [get_attribute_value] each make one
    request to the cluster; the request carries a manufacturer code
    exactly when the cluster id is at least 0xFC00 and the pool declares a
    code that is not zero, and the code it carries is the pool's; below
    0xFC00 it carries none, whatever the pool declares. *)
Theorem manufacturer_code_attached (self : ZigbeeChannel.t)
    (attr : attr_ref) (report_config : Z * Z * Z) (attribute : attr_ref)
    (from_cache : bool) (s : state) :
  ∃ m_report m_read,
    omap manufacturer_of
      (emitted (ZigbeeChannel.configure_reporting self attr report_config) s)
      = [m_report] ∧
    omap manufacturer_of
      (emitted (ZigbeeChannel.get_attribute_value self attribute from_cache)
         s)
      = [m_read] ∧
    (∀ code, m_report = Some code ↔
       0xFC00 ≤ Cluster.cluster_id (ZigbeeChannel._cluster self) ∧
       ChannelPool.manufacturer_code (ZigbeeChannel._ch_pool self)
         = Some code ∧ code ≠ 0) ∧
    (∀ code, m_read = Some code ↔
       0xFC00 ≤ Cluster.cluster_id (ZigbeeChannel._cluster self) ∧
       ChannelPool.manufacturer_code (ZigbeeChannel._ch_pool self)
         = Some code ∧ code ≠ 0) ∧
    (Cluster.cluster_id (ZigbeeChannel._cluster self) < 0xFC00 →
     m_report = None ∧ m_read = None) ∧
    ZigbeeChannel.get_attribute_value self attribute from_cache =
      (result ← safe_read (ZigbeeChannel._cluster self) [attribute]
                  from_cache from_cache m_read;
       mret (dict_get result attribute)).
Proof.
  destruct report_config as [[mn mx] ch].
  destruct (configure_reporting_run self attr mn mx ch s)
    as (m & log & Htrace & Hlog & _ & Hm & _).
  assert (Hrule : ∀ code, m = Some code ↔
            0xFC00 ≤ Cluster.cluster_id (ZigbeeChannel._cluster self) ∧
            ChannelPool.manufacturer_code (ZigbeeChannel._ch_pool self)
              = Some code ∧ code ≠ 0).
  { intros code. rewrite Hm. apply manufacturer_rule. }
  clear Hm. exists m.
  exists (if (Cluster.cluster_id (ZigbeeChannel._cluster self) >=? 0xFC00)
             && truthy (ChannelPool.manufacturer_code
                          (ZigbeeChannel._ch_pool self))
          then ChannelPool.manufacturer_code (ZigbeeChannel._ch_pool self)
          else None).
  split; [| split; [| split; [exact Hrule | split; [| split; [| done]]]]].
  - rewrite (emitted_extension _ _ _ Htrace).
    change (m :: omap manufacturer_of log = [m]).
    by rewrite (log_lines_no_manufacturer _ Hlog).
  - assert (Hread :
      trace (ZigbeeChannel.get_attribute_value self attribute from_cache s).2
        = trace s ++
          [ReadAttributes [attribute] from_cache from_cache
             (if (Cluster.cluster_id (ZigbeeChannel._cluster self)
                    >=? 0xFC00)
                 && truthy (ChannelPool.manufacturer_code
                              (ZigbeeChannel._ch_pool self))
              then ChannelPool.manufacturer_code
                     (ZigbeeChannel._ch_pool self)
              else None)]).
    { unfold ZigbeeChannel.get_attribute_value, safe_read, try_except,
        await, mbind, M_bind, ZigbeeChannel.cluster.
      destruct (Cluster.read_attributes _ _ _ _ _ _); reflexivity. }
    by rewrite (emitted_extension _ _ _ Hread).
  - intros code. apply manufacturer_rule.
  - intros Hbelow. split.
    + destruct m as [code |]; [| done].
      destruct (proj1 (Hrule code) eq_refl) as [Hge _]. lia.
    + destruct (Z.geb_spec (Cluster.cluster_id (ZigbeeChannel._cluster self))
                  0xFC00); [lia | done].
Qed.

Lemma manufacturer_code_attached_sample :
  omap manufacturer_of
    (emitted (ZigbeeChannel.configure_reporting
                (Samples.channel Samples.on_off) (AttrId 0) (30, 900, 1))
       ZigbeeChannel.created) = [None] ∧
  omap manufacturer_of
    (emitted (ZigbeeChannel.get_attribute_value
                (Samples.channel Samples.on_off) (AttrId 0) true)
       ZigbeeChannel.created) = [None].
Proof.
  destruct (manufacturer_code_attached (Samples.channel Samples.on_off)
              (AttrId 0) (30, 900, 1) (AttrId 0) true ZigbeeChannel.created)
    as (m_report & m_read & Hreport & Hread & _ & _ & Hbelow & _).
  destruct Hbelow as [-> ->]; [reflexivity |].
  exact (conj Hreport Hread).
Defined.

Example manufacturer_code_vendor_cluster :
  omap manufacturer_of
    (emitted (ZigbeeChannel.configure_reporting
                (Samples.channel Samples.vendor) (AttrId 0x0020) (30, 900, 1))
       ZigbeeChannel.created) = [Some 0x115F] ∧
  omap manufacturer_of
    (emitted (ZigbeeChannel.get_attribute_value
                (Samples.channel Samples.vendor) (AttrId 0x0020) true)
       ZigbeeChannel.created) = [Some 0x115F].
Proof. split; reflexivity. Qed.

(** ** Order and pacing of a configuration *)

(** A draw in [[0, 1)] gives a pause between 0.1 and 0.5. *)
Lemma uniform_bounds (draw : Q) :
  (0 <= draw)%Q → (draw < 1)%Q →
  (1 # 10 <= uniform (1 # 10) (1 # 2) draw)%Q ∧
  (uniform (1 # 10) (1 # 2) draw <= 1 # 2)%Q.
Proof. unfold uniform. intros Hlo Hhi. split; lra. Qed.

Lemma configure_each_cons (random : history -> Q) (self : ZigbeeChannel.t)
    (entry : report_entry) (rest : list report_entry) (s : state) :
  ZigbeeChannel.configure_each random self (entry :: rest) s =
    match ZigbeeChannel.configure_reporting self (attr entry) (config entry) s
    with
    | (Return _, s1) =>
        ZigbeeChannel.configure_each random self rest
          {| _status := _status s1;
             trace := trace s1 ++
               [Sleep (uniform (1 # 10) (1 # 2) (random (trace s1)))] |}
    | (Raise ex, s1) => (Raise ex, s1)
    end.
Proof.
  simpl. unfold mbind, M_bind.
  destruct (ZigbeeChannel.configure_reporting _ _ _ s) as [[[] | ex] s1];
    reflexivity.
Qed.

(** The loop: the entries in declared order, a pause after each; what it
    did when an exception ends it early is a beginning of that. *)
Lemma configure_each_run (random : history -> Q) (self : ZigbeeChannel.t)
    (entries : list report_entry) (s : state) :
  ∃ m new,
    trace (ZigbeeChannel.configure_each random self entries s).2
      = trace s ++ new ∧
    _status (ZigbeeChannel.configure_each random self entries s).2
      = _status s ∧
    omap step_of new `prefix_of` reporting_schedule m entries ∧
    ((ZigbeeChannel.configure_each random self entries s).1 = Return tt →
     omap step_of new = reporting_schedule m entries) ∧
    Forall (fun d => ∃ h, d = uniform (1 # 10) (1 # 2) (random h))
      (omap pause_of new) ∧
    (fails_only_by_delivery_or_timeout (ZigbeeChannel._cluster self) →
     (ZigbeeChannel.configure_each random self entries s).1 = Return tt).
Proof.
  remember
    (if (Cluster.cluster_id (ZigbeeChannel._cluster self) >=? 0xFC00)
        && truthy (ChannelPool.manufacturer_code
                     (ZigbeeChannel._ch_pool self))
     then ChannelPool.manufacturer_code (ZigbeeChannel._ch_pool self)
     else None) as code eqn:Hcode.
  exists code. revert s. induction entries as [| [a [[mn mx] ch]] rest IH]; intros s.
  - exists []. simpl. rewrite app_nil_r. repeat split; auto.
  - rewrite configure_each_cons. simpl attr. simpl config.
    destruct (configure_reporting_run self a mn mx ch s)
      as (m & log & Htrace & Hlog & Hstatus & Hm & Houtcome).
    rewrite <- Hcode in Hm. subst m.
    destruct (ZigbeeChannel.configure_reporting self a (mn, mx, ch) s)
      as [[[] | ex] s1]; simpl in Htrace, Hstatus, Houtcome.
    + specialize (IH {| _status := _status s1;
                        trace := trace s1 ++
                          [Sleep (uniform (1 # 10) (1 # 2)
                                    (random (trace s1)))] |}).
      destruct IH as (new & Hnew & Hst & Hprefix & Hfull & Hpauses & Hok).
      simpl in Hnew, Hst.
      exists (ConfigureReporting a mn mx ch code :: log
              ++ Sleep (uniform (1 # 10) (1 # 2) (random (trace s1))) :: new).
      split.
      { rewrite Hnew, Htrace. rewrite <- !app_assoc. reflexivity. }
      split; [congruence |].
      change (omap step_of (ConfigureReporting a mn mx ch ?m :: ?l))
        with (ReportStep a (mn, mx, ch) m :: omap step_of l).
      change (omap pause_of (ConfigureReporting a mn mx ch ?m :: ?l))
        with (omap pause_of l).
      rewrite !omap_app.
      rewrite (log_lines_no_step _ Hlog), (log_lines_no_pause _ Hlog).
      simpl app.
      change (omap step_of (Sleep ?d :: ?l))
        with (PauseStep :: omap step_of l).
      change (omap pause_of (Sleep ?d :: ?l)) with (d :: omap pause_of l).
      split; [by do 2 apply prefix_cons |].
      split; [intros Hret; simpl; do 2 f_equal; exact (Hfull Hret) |].
      split; [apply Forall_cons; eauto | exact Hok].
    + exists (ConfigureReporting a mn mx ch code :: log).
      split; [exact Htrace |]. split; [exact Hstatus |].
      change (omap step_of (ConfigureReporting a mn mx ch ?m :: ?l))
        with (ReportStep a (mn, mx, ch) m :: omap step_of l).
      change (omap pause_of (ConfigureReporting a mn mx ch ?m :: ?l))
        with (omap pause_of l).
      rewrite (log_lines_no_step _ Hlog), (log_lines_no_pause _ Hlog).
      split; [apply prefix_cons, prefix_nil |].
      split; [discriminate |]. split; [apply Forall_nil; auto |].
      intros [_ Hbenign].
      specialize (Hbenign (trace s) a mn mx ch code).
      destruct (Cluster.configure_reporting _ _ _ _ _ _ _) as [res | ex'];
        [discriminate |].
      rewrite Hbenign in Houtcome. discriminate.
Qed.

Lemma async_configure_unfold (random : history -> Q)
    (self : ZigbeeChannel.t) (s : state) :
  ChannelPool.skip_configuration (ZigbeeChannel._ch_pool self) = false →
  ZigbeeChannel.async_configure random self s =
    match ZigbeeChannel.bind self s with
    | (Return _, s1) =>
        match (if Cluster.is_server (ZigbeeChannel._cluster self)
               then ZigbeeChannel.configure_each random self
                      (ZigbeeChannel._report_config self)
               else mret tt) s1 with
        | (Return _, s2) =>
            (Return tt,
             {| _status := CONFIGURED;
                trace := trace s2 ++
                  [Logged DEBUG "[%s:%s]: finished channel configuration"
                     [PInt (ChannelPool.nwk (ZigbeeChannel._ch_pool self));
                      PStr (ZigbeeChannel._id self)]] |})
        | (Raise ex, s2) => (Raise ex, s2)
        end
    | (Raise ex, s1) => (Raise ex, s1)
    end.
Proof.
  intros Hskip. unfold ZigbeeChannel.async_configure. rewrite Hskip.
  unfold ZigbeeChannel.cluster, mbind, M_bind.
  change (negb false) with true. cbv beta iota.
  destruct (ZigbeeChannel.bind self s) as [[[] | ex] s1]; [| reflexivity].
  destruct (Cluster.is_server (ZigbeeChannel._cluster self)).
  - destruct (ZigbeeChannel.configure_each _ _ _ s1) as [[[] | ex] s2];
      reflexivity.
  - reflexivity.
Qed.

(** A whole configuration that is not skipped. *)
Lemma async_configure_run (random : history -> Q) (self : ZigbeeChannel.t)
    (s : state) :
  ChannelPool.skip_configuration (ZigbeeChannel._ch_pool self) = false →
  ∃ m new,
    trace (ZigbeeChannel.async_configure random self s).2 = trace s ++ new ∧
    omap step_of new `prefix_of`
      BindStep ::
        (if Cluster.is_server (ZigbeeChannel._cluster self)
         then reporting_schedule m (ZigbeeChannel._report_config self)
         else []) ∧
    ((ZigbeeChannel.async_configure random self s).1 = Return tt →
     omap step_of new =
       BindStep ::
         (if Cluster.is_server (ZigbeeChannel._cluster self)
          then reporting_schedule m (ZigbeeChannel._report_config self)
          else []) ∧
     _status (ZigbeeChannel.async_configure random self s).2 = CONFIGURED) ∧
    Forall (fun d => ∃ h, d = uniform (1 # 10) (1 # 2) (random h))
      (omap pause_of new) ∧
    (fails_only_by_delivery_or_timeout (ZigbeeChannel._cluster self) →
     (ZigbeeChannel.async_configure random self s).1 = Return tt).
Proof.
  intros Hskip. rewrite (async_configure_unfold _ _ _ Hskip).
  destruct (bind_run self s) as (log & Htrace & Hlog & _ & Houtcome).
  destruct (ZigbeeChannel.bind self s) as [[[] | ex] s1];
    simpl in Htrace, Houtcome.
  - destruct (Cluster.is_server (ZigbeeChannel._cluster self)).
    + destruct (configure_each_run random self
                  (ZigbeeChannel._report_config self) s1)
        as (m & new & Hnew & _ & Hprefix & Hfull & Hpauses & Hok).
      exists m.
      destruct (ZigbeeChannel.configure_each _ _ _ s1) as [[[] | ex] s2];
        simpl in Hnew, Hfull, Hok.
      * eexists (Bind :: log ++ new ++ [Logged _ _ _]). simpl.
        split. { rewrite Hnew, Htrace, <- !app_assoc. reflexivity. }
        change (omap step_of (Bind :: ?l)) with (BindStep :: omap step_of l).
        change (omap pause_of (Bind :: ?l)) with (omap pause_of l).
        rewrite !omap_app, (log_lines_no_step _ Hlog),
          (log_lines_no_pause _ Hlog).
        simpl. rewrite !app_nil_r.
        split; [by apply prefix_cons |].
        split; [intros _; split; [f_equal; by apply Hfull | done] |].
        split; [exact Hpauses | done].
      * exists (Bind :: log ++ new). simpl.
        split. { rewrite Hnew, Htrace, <- !app_assoc. reflexivity. }
        change (omap step_of (Bind :: ?l)) with (BindStep :: omap step_of l).
        change (omap pause_of (Bind :: ?l)) with (omap pause_of l).
        rewrite !omap_app, (log_lines_no_step _ Hlog),
          (log_lines_no_pause _ Hlog).
        simpl.
        split; [by apply prefix_cons |].
        split; [discriminate |].
        split; [exact Hpauses | exact Hok].
    + exists None. eexists (Bind :: log ++ [Logged _ _ _]). simpl.
      split. { rewrite Htrace, <- !app_assoc. reflexivity. }
      change (omap step_of (Bind :: ?l)) with (BindStep :: omap step_of l).
      change (omap pause_of (Bind :: ?l)) with (omap pause_of l).
      rewrite !omap_app, (log_lines_no_step _ Hlog),
        (log_lines_no_pause _ Hlog).
      simpl. repeat split; auto.
  - exists None, (Bind :: log). cbn [fst snd].
    split; [exact Htrace |].
    change (omap step_of (Bind :: log)) with (BindStep :: omap step_of log).
    change (omap pause_of (Bind :: log)) with (omap pause_of log).
    rewrite (log_lines_no_step _ Hlog), (log_lines_no_pause _ Hlog).
    split; [apply prefix_cons, prefix_nil |].
    split; [discriminate |]. split; [apply Forall_nil; auto |].
    intros [Hbenign _]. specialize (Hbenign (trace s)).
    destruct (Cluster.bind _ (trace s)) as [[| res0 res] | ex'].
    + done.
    + discriminate.
    + rewrite Hbenign in Houtcome. discriminate.
Qed.

Lemma sample_random_range (h : history) :
  (0 <= Samples.random h)%Q ∧ (Samples.random h < 1)%Q.
Proof.
  unfold Samples.random, Qle, Qlt; simpl. lia.
Qed.


Example async_configure_sample_schedule :
  omap step_of
    (emitted (ZigbeeChannel.async_configure Samples.random
                (Samples.channel Samples.on_off)) ZigbeeChannel.created)
  = [BindStep;
     ReportStep (AttrId 0x0020) (30, 900, 1) None; PauseStep;
     ReportStep (AttrName "level") (1, 60, 5) None; PauseStep].
Proof. reflexivity. Qed.

(** ** Lifecycle *)

Lemma zdo_call_run (self : ZDOChannel.t) (c : lifecycle_call) (s : state) :
  (zdo_call self c s).1 = Return tt ∧
  _status (zdo_call self c s).2 = status_after c.
Proof. destruct c; split; reflexivity. Qed.

Lemma zigbee_call_run (random : history -> Q) (self : ZigbeeChannel.t)
    (c : lifecycle_call) (s : state) :
  fails_only_by_delivery_or_timeout (ZigbeeChannel._cluster self) →
  (zigbee_call random self c s).1 = Return tt ∧
  _status (zigbee_call random self c s).2 = status_after c.
Proof.
  intros Hbenign. destruct c as [| from_cache]; simpl.
  - destruct (ChannelPool.skip_configuration (ZigbeeChannel._ch_pool self))
      eqn:Hskip.
    + by rewrite (async_configure_skip_run _ _ _ Hskip).
    + destruct (async_configure_run random self s Hskip)
        as (m & new & _ & _ & Hfull & _ & Hok).
      split; [by apply Hok | by apply Hfull, Hok].
  - split; reflexivity.
Qed.

Lemma run_calls_statuses (step : lifecycle_call -> M unit)
    (calls : list lifecycle_call) :
  (∀ c s, (step c s).1 = Return tt ∧ _status (step c s).2 = status_after c) →
  ∀ s, (run_calls step calls s).1 = Return (map status_after calls).
Proof.
  intros Hstep. induction calls as [| c rest IH]; intros s; [reflexivity |].
  simpl. unfold mbind, M_bind, get_status.
  destruct (Hstep c s) as [Hret Hst].
  destruct (step c s) as [[[] | ex] s1]; simpl in Hret, Hst; [| discriminate].
  specialize (IH s1).
  destruct (run_calls step rest s1) as [[seen | ex] s2]; simpl in IH.
  - injection IH as ->. simpl. by rewrite Hst.
  - discriminate.
Qed.

Lemma never_regresses_order (from : ChannelStatus)
    (calls : list lifecycle_call) :
  never_regresses from (map status_after calls)
    = configures_before_initializing from calls.
Proof.
  revert from. induction calls as [| c rest IH]; intros from; [reflexivity |].
  simpl. rewrite IH. by destruct from, c.
Qed.

Lemma async_configure_returns_status (random : history -> Q)
    (self : ZigbeeChannel.t) (s : state) :
  (ZigbeeChannel.async_configure random self s).1 = Return tt →
  _status (ZigbeeChannel.async_configure random self s).2 = CONFIGURED.
Proof.
  intros Hret.
  destruct (ChannelPool.skip_configuration (ZigbeeChannel._ch_pool self))
    eqn:Hskip.
  - by rewrite (async_configure_skip_run _ _ _ Hskip).
  - destruct (async_configure_run random self s Hskip)
      as (m & new & _ & _ & Hfull & _). by apply Hfull.
Qed.

Lemma zigbee_call_returns_status (random : history -> Q)
    (self : ZigbeeChannel.t) (c : lifecycle_call) (s : state) :
  (zigbee_call random self c s).1 = Return tt →
  _status (zigbee_call random self c s).2 = status_after c.
Proof.
  destruct c as [| from_cache]; simpl.
  - apply async_configure_returns_status.
  - reflexivity.
Qed.

Lemma listening_initialize_run (self : AttributeListeningChannel.t)
    (from_cache : bool) (s : state) :
  ZigbeeChannel._report_config (AttributeListeningChannel.base self) = [] ∧
  (AttributeListeningChannel.async_initialize self from_cache s).1
    = Raise (IndexError "list index out of range")
  ∨
  (AttributeListeningChannel.async_initialize self from_cache s).1
    = Return tt ∧
  _status (AttributeListeningChannel.async_initialize self from_cache s).2
    = INITIALIZED.
Proof.
  unfold AttributeListeningChannel.async_initialize,
    ZigbeeChannel.get_attribute_value, ZigbeeChannel.async_initialize,
    safe_read, try_except, await, mbind, M_bind, ZigbeeChannel.cluster.
  destruct (ZigbeeChannel._report_config _) as [| first rest]; simpl.
  - left. by split.
  - right. destruct (Cluster.read_attributes _ _ _ _ _ _); by split.
Qed.

Lemma listening_call_returns_status (random : history -> Q)
    (self : AttributeListeningChannel.t) (c : lifecycle_call) (s : state) :
  (listening_call random self c s).1 = Return tt →
  _status (listening_call random self c s).2 = status_after c.
Proof.
  destruct c as [| from_cache]; simpl.
  - apply async_configure_returns_status.
  - destruct (listening_initialize_run self from_cache s)
      as [[_ Hraise] | [_ Hst]]; [| done].
    rewrite Hraise. discriminate.
Qed.

Lemma listening_call_run (random : history -> Q)
    (self : AttributeListeningChannel.t) (c : lifecycle_call) (s : state) :
  fails_only_by_delivery_or_timeout
    (ZigbeeChannel._cluster (AttributeListeningChannel.base self)) →
  ZigbeeChannel._report_config (AttributeListeningChannel.base self) ≠ [] →
  (listening_call random self c s).1 = Return tt ∧
  _status (listening_call random self c s).2 = status_after c.
Proof.
  intros Hbenign Hconfig. destruct c as [| from_cache].
  - apply (zigbee_call_run random (AttributeListeningChannel.base self)
             AsyncConfigure s Hbenign).
  - simpl. destruct (listening_initialize_run self from_cache s)
      as [[Hempty _] | Hrun]; [done | exact Hrun].
Qed.

Lemma run_calls_returned_statuses (step : lifecycle_call -> M unit)
    (calls : list lifecycle_call) :
  (∀ c s, (step c s).1 = Return tt →
          _status (step c s).2 = status_after c) →
  ∀ s seen, (run_calls step calls s).1 = Return seen →
            seen = map status_after calls.
Proof.
  intros Hstep. induction calls as [| c rest IH]; intros s seen.
  - simpl. by intros [= <-].
  - simpl. unfold mbind, M_bind, get_status.
    specialize (Hstep c s).
    destruct (step c s) as [[[] | ex] s1]; simpl in *; [| discriminate].
    specialize (IH s1).
    destruct (run_calls step rest s1) as [[seen' | ex] s2]; simpl in *;
      [| discriminate].
    intros [= <-]. by rewrite Hstep, (IH seen').
Qed.

(** C1, as the code behaves.  The status is one of the three members.  A
    call that returns leaves the status it sets, [CONFIGURED] for
    [async_configure] and [INITIALIZED] for [async_initialize], whatever
    the status was and whatever the transport does, on a [ZDOChannel], a
    [ZigbeeChannel] and an attribute-listening channel alike; so a run of
    calls never regresses the status exactly when it never configures a
    channel that is already initialized.  On a [ZDOChannel] no call
    throws; on a [ZigbeeChannel] no call throws when the transport fails
    only by delivery failure or timeout, and the same holds for an
    attribute-listening channel that has a report entry. *)
Theorem lifecycle_calls (random : history -> Q) (zigbee : ZigbeeChannel.t)
    (listening : AttributeListeningChannel.t) (zdo : ZDOChannel.t)
    (calls : list lifecycle_call) (s : state) :
  (run_calls (zdo_call zdo) calls s).1 = Return (map status_after calls) ∧
  (∀ seen, (run_calls (zigbee_call random zigbee) calls s).1 = Return seen →
           seen = map status_after calls) ∧
  (∀ seen, (run_calls (listening_call random listening) calls s).1
             = Return seen →
           seen = map status_after calls) ∧
  (fails_only_by_delivery_or_timeout (ZigbeeChannel._cluster zigbee) →
   (run_calls (zigbee_call random zigbee) calls s).1
     = Return (map status_after calls)) ∧
  (fails_only_by_delivery_or_timeout
     (ZigbeeChannel._cluster (AttributeListeningChannel.base listening)) →
   ZigbeeChannel._report_config (AttributeListeningChannel.base listening)
     ≠ [] →
   (run_calls (listening_call random listening) calls s).1
     = Return (map status_after calls)) ∧
  never_regresses (_status s) (map status_after calls)
    = configures_before_initializing (_status s) calls.
Proof.
  split; [| split; [| split; [| split; [| split]]]].
  - apply run_calls_statuses. intros c s'. apply zdo_call_run.
  - apply run_calls_returned_statuses. intros c s'.
    apply zigbee_call_returns_status.
  - apply run_calls_returned_statuses. intros c s'.
    apply listening_call_returns_status.
  - intros Hbenign. apply run_calls_statuses. intros c s'.
    by apply zigbee_call_run.
  - intros Hbenign Hconfig. apply run_calls_statuses. intros c s'.
    by apply listening_call_run.
  - apply never_regresses_order.
Qed.

Lemma sample_asleep_contained :
  fails_only_by_delivery_or_timeout Samples.asleep.
Proof. split; intros; reflexivity. Qed.

Lemma sample_vendor_contained :
  fails_only_by_delivery_or_timeout Samples.vendor.
Proof. split; intros; simpl; done. Qed.

Lemma lifecycle_calls_sample :
  (run_calls (zigbee_call Samples.random (Samples.channel Samples.asleep))
     [AsyncConfigure; AsyncConfigure; AsyncInitialize true;
      AsyncInitialize false] ZigbeeChannel.created).1
    = Return [CONFIGURED; CONFIGURED; INITIALIZED; INITIALIZED] ∧
  (run_calls (listening_call Samples.random Samples.listening)
     [AsyncConfigure; AsyncInitialize true] ZigbeeChannel.created).1
    = Return [CONFIGURED; INITIALIZED] ∧
  never_regresses CREATED [CONFIGURED; CONFIGURED; INITIALIZED; INITIALIZED]
    = true.
Proof.
  destruct (lifecycle_calls Samples.random (Samples.channel Samples.asleep)
              Samples.listening Samples.zdo
              [AsyncConfigure; AsyncConfigure; AsyncInitialize true;
               AsyncInitialize false] ZigbeeChannel.created)
    as (_ & _ & _ & Hzigbee & _ & Horder).
  destruct (lifecycle_calls Samples.random (Samples.channel Samples.asleep)
              Samples.listening Samples.zdo
              [AsyncConfigure; AsyncInitialize true] ZigbeeChannel.created)
    as (_ & _ & _ & _ & Hlistening & _).
  split; [exact (Hzigbee sample_asleep_contained) |].
  split; [| exact Horder].
  apply Hlistening; [exact sample_vendor_contained | discriminate].
Defined.

(** C1 as the specification states it fails: [async_configure] after
    [async_initialize] takes the status of a [ZDOChannel], and of a
    [ZigbeeChannel], from [INITIALIZED] back to [CONFIGURED]; and
    [async_configure] of a [ZigbeeChannel] throws what the transport
    throws when that is neither a delivery failure nor a timeout. *)
Lemma lifecycle_regresses_and_throws :
  (run_calls (zdo_call Samples.zdo) [AsyncInitialize false; AsyncConfigure]
     ZDOChannel.created).1 = Return [INITIALIZED; CONFIGURED] ∧
  (run_calls (zigbee_call Samples.random (Samples.channel Samples.on_off))
     [AsyncInitialize false; AsyncConfigure] ZigbeeChannel.created).1
    = Return [INITIALIZED; CONFIGURED] ∧
  never_regresses CREATED [INITIALIZED; CONFIGURED] = false ∧
  status_value CONFIGURED < status_value INITIALIZED ∧
  (ZigbeeChannel.async_configure Samples.random
     (Samples.channel Samples.broken) ZigbeeChannel.created).1
    = Raise (OtherException "ValueError" "bad frame").
Proof. repeat split. Qed.

(** * Further properties of the module *)

(** ** What a coroutine keeps, and what it can raise *)

Lemma preserves_ret {A} (P : state -> Prop) (a : A) :
  preserves P (mret a : M A).
Proof. intros s Hs. exact Hs. Qed.

Lemma preserves_raise {A} (P : state -> Prop) (ex : exn) :
  preserves P (raise ex : M A).
Proof. intros s Hs. exact Hs. Qed.

Lemma preserves_bind {A B} (P : state -> Prop) (m : M A) (k : A -> M B) :
  preserves P m → (∀ a, preserves P (k a)) → preserves P (m ≫= k).
Proof.
  intros Hm Hk s Hs. unfold mbind, M_bind.
  specialize (Hm s Hs). destruct (m s) as [[a | ex] s1]; simpl in Hm.
  - by apply Hk.
  - exact Hm.
Qed.

Lemma preserves_try_except {A} (P : state -> Prop) (body : M A)
    (catches : exn -> bool) (handler : exn -> M A) :
  preserves P body → (∀ ex, preserves P (handler ex)) →
  preserves P (try_except body catches handler).
Proof.
  intros Hbody Hhandler s Hs. unfold try_except.
  specialize (Hbody s Hs). destruct (body s) as [[a | ex] s1]; simpl in Hbody.
  - exact Hbody.
  - destruct (catches ex); [by apply Hhandler | exact Hbody].
Qed.

Lemma preserves_item0 {A} (P : state -> Prop) (l : list A) :
  preserves P (item0 l).
Proof. destruct l; intros s Hs; exact Hs. Qed.

Lemma preserves_read_name (P : state -> Prop) (cmd : command) :
  preserves P (read_name cmd).
Proof. unfold read_name. destruct (__name__ cmd); intros s0 Hs; exact Hs. Qed.

(** The status: only [set_status] touches it. *)
Lemma status_kept_emit (st : ChannelStatus) (e : event) :
  preserves (fun s => _status s = st) (emit e).
Proof. intros s Hs. exact Hs. Qed.

Lemma status_kept_await {A} (st : ChannelStatus) (e : event)
    (answer : history -> outcome A) :
  preserves (fun s => _status s = st) (await e answer).
Proof. intros s Hs. exact Hs. Qed.

Lemma status_kept_debug (st : ChannelStatus) (self : ZigbeeChannel.t)
    msg args :
  preserves (fun s => _status s = st) (debug self msg args).
Proof. intros s Hs. exact Hs. Qed.

(** The tag of the log lines. *)
Lemma tags_kept_emit (self : ZigbeeChannel.t) (e : event) :
  tagged self e →
  preserves (fun s => Forall (tagged self) (trace s)) (emit e).
Proof.
  intros He s Hs. simpl. apply Forall_app. split; [exact Hs |].
  by apply Forall_singleton.
Qed.

Lemma tags_kept_await {A} (self : ZigbeeChannel.t) (e : event)
    (answer : history -> outcome A) :
  tagged self e →
  preserves (fun s => Forall (tagged self) (trace s)) (await e answer).
Proof.
  intros He s Hs. simpl. apply Forall_app. split; [exact Hs |].
  by apply Forall_singleton.
Qed.

Lemma tags_kept_debug (self : ZigbeeChannel.t) msg args :
  preserves (fun s => Forall (tagged self) (trace s)) (debug self msg args).
Proof.
  apply tags_kept_emit. simpl. split; [reflexivity |]. split; eauto.
Qed.

Lemma tags_kept_set_status (self : ZigbeeChannel.t) (st : ChannelStatus) :
  preserves (fun s => Forall (tagged self) (trace s)) (set_status st).
Proof. intros s Hs. exact Hs. Qed.

Create HintDb kept.
#[local] Hint Resolve preserves_ret preserves_raise preserves_item0
  preserves_read_name status_kept_emit status_kept_await status_kept_debug
  tags_kept_debug tags_kept_set_status : kept.

(** Break a coroutine into its steps and settle each. *)
Ltac keep :=
  repeat first
    [ apply preserves_bind; [| intros ?]
    | apply preserves_try_except; [| intros ?]
    | apply tags_kept_await; exact I
    | apply tags_kept_emit; exact I
    | solve [auto with kept] ].

Lemma status_kept_bind (st : ChannelStatus) (self : ZigbeeChannel.t) :
  preserves (fun s => _status s = st) (ZigbeeChannel.bind self).
Proof. unfold ZigbeeChannel.bind. keep. Qed.

Lemma status_kept_configure_reporting (st : ChannelStatus)
    (self : ZigbeeChannel.t) attr report_config :
  preserves (fun s => _status s = st)
    (ZigbeeChannel.configure_reporting self attr report_config).
Proof.
  unfold ZigbeeChannel.configure_reporting.
  destruct report_config as [[mn mx] ch]. keep.
Qed.

Lemma status_kept_safe_read (st : ChannelStatus) cluster attrs ac oc m :
  preserves (fun s => _status s = st) (safe_read cluster attrs ac oc m).
Proof. unfold safe_read. keep. Qed.

Lemma status_kept_wrapper (st : ChannelStatus) (self : ZigbeeChannel.t)
    (cmd : command) args kwds :
  preserves (fun s => _status s = st) (decorate_command self cmd args kwds).
Proof. unfold decorate_command. keep. Qed.

Lemma tags_kept_bind (self : ZigbeeChannel.t) :
  preserves (fun s => Forall (tagged self) (trace s))
    (ZigbeeChannel.bind self).
Proof. unfold ZigbeeChannel.bind. keep. Qed.

Lemma tags_kept_configure_reporting (self : ZigbeeChannel.t) attr
    report_config :
  preserves (fun s => Forall (tagged self) (trace s))
    (ZigbeeChannel.configure_reporting self attr report_config).
Proof.
  unfold ZigbeeChannel.configure_reporting.
  destruct report_config as [[mn mx] ch]. keep.
Qed.

Lemma tags_kept_configure_each (random : history -> Q)
    (self : ZigbeeChannel.t) (entries : list report_entry) :
  preserves (fun s => Forall (tagged self) (trace s))
    (ZigbeeChannel.configure_each random self entries).
Proof.
  induction entries as [| entry rest IH]; simpl.
  - keep.
  - apply preserves_bind; [apply tags_kept_configure_reporting | intros _].
    apply preserves_bind; [| intros _; exact IH].
    intros s Hs. unfold ZigbeeChannel.sleep_uniform.
    by apply tags_kept_emit.
Qed.

Lemma tags_kept_async_configure (random : history -> Q)
    (self : ZigbeeChannel.t) :
  preserves (fun s => Forall (tagged self) (trace s))
    (ZigbeeChannel.async_configure random self).
Proof.
  unfold ZigbeeChannel.async_configure.
  apply preserves_bind; [| intros _; keep].
  destruct (negb _); [| keep].
  apply preserves_bind; [apply tags_kept_bind | intros _].
  apply preserves_bind; [| intros _; keep].
  destruct (Cluster.is_server _); [apply tags_kept_configure_each | keep].
Qed.

Lemma tags_kept_async_initialize (self : ZigbeeChannel.t) from_cache :
  preserves (fun s => Forall (tagged self) (trace s))
    (ZigbeeChannel.async_initialize self from_cache).
Proof. unfold ZigbeeChannel.async_initialize. keep. Qed.

Lemma tags_kept_wrapper (self : ZigbeeChannel.t) (cmd : command) args kwds :
  preserves (fun s => Forall (tagged self) (trace s))
    (decorate_command self cmd args kwds).
Proof. unfold decorate_command. keep. Qed.

(** Exceptions: what is not caught on the way is what comes out. *)
Lemma raises_only_ret {A} (Q : exn -> Prop) (a : A) :
  raises_only Q (mret a : M A).
Proof. intros s ex Hraise. discriminate. Qed.

Lemma raises_only_emit (Q : exn -> Prop) (e : event) :
  raises_only Q (emit e).
Proof. intros s ex Hraise. discriminate. Qed.

Lemma raises_only_debug (Q : exn -> Prop) (self : ZigbeeChannel.t) msg args :
  raises_only Q (debug self msg args).
Proof. intros s ex Hraise. discriminate. Qed.

Lemma raises_only_set_status (Q : exn -> Prop) (st : ChannelStatus) :
  raises_only Q (set_status st).
Proof. intros s ex Hraise. discriminate. Qed.

Lemma raises_only_bind {A B} (Q : exn -> Prop) (m : M A) (k : A -> M B) :
  raises_only Q m → (∀ a, raises_only Q (k a)) → raises_only Q (m ≫= k).
Proof.
  intros Hm Hk s ex. unfold mbind, M_bind.
  specialize (Hm s). destruct (m s) as [[a | ex'] s1]; simpl in *.
  - apply Hk.
  - intros [= <-]. by apply Hm.
Qed.

Lemma raises_only_try_except {A} (Q : exn -> Prop) (body : M A)
    (catches : exn -> bool) (handler : exn -> M A) :
  (∀ ex, catches ex = false → Q ex) →
  (∀ ex, raises_only Q (handler ex)) →
  raises_only Q (try_except body catches handler).
Proof.
  intros Hmiss Hhandler s ex. unfold try_except.
  destruct (body s) as [[a | ex'] s1]; simpl; [discriminate |].
  destruct (catches ex') eqn:Hcatch.
  - apply Hhandler.
  - simpl. intros [= <-]. by apply Hmiss.
Qed.

Lemma contained_read_name (cmd : command) :
  raises_only (fun ex => delivery_or_timeout ex = false) (read_name cmd).
Proof.
  unfold read_name. intros s ex. destruct (__name__ cmd); simpl.
  - discriminate.
  - by intros [= <-].
Qed.

#[local] Hint Resolve raises_only_ret raises_only_emit raises_only_debug
  raises_only_set_status contained_read_name : kept.

Ltac contain :=
  repeat first
    [ apply raises_only_try_except; [intros ? ?; assumption | intros ?]
    | apply raises_only_bind; [| intros ?]
    | solve [auto with kept] ].

Lemma contained_bind (self : ZigbeeChannel.t) :
  raises_only (fun ex => delivery_or_timeout ex = false)
    (ZigbeeChannel.bind self).
Proof. unfold ZigbeeChannel.bind. contain. Qed.

Lemma contained_configure_reporting (self : ZigbeeChannel.t) attr
    report_config :
  raises_only (fun ex => delivery_or_timeout ex = false)
    (ZigbeeChannel.configure_reporting self attr report_config).
Proof.
  unfold ZigbeeChannel.configure_reporting.
  destruct report_config as [[mn mx] ch]. contain.
Qed.

Lemma contained_configure_each (random : history -> Q)
    (self : ZigbeeChannel.t) (entries : list report_entry) :
  raises_only (fun ex => delivery_or_timeout ex = false)
    (ZigbeeChannel.configure_each random self entries).
Proof.
  induction entries as [| entry rest IH]; simpl.
  - contain.
  - apply raises_only_bind; [apply contained_configure_reporting | intros _].
    apply raises_only_bind; [| intros _; exact IH].
    intros s ex Hraise. discriminate.
Qed.

Lemma contained_async_configure (random : history -> Q)
    (self : ZigbeeChannel.t) :
  raises_only (fun ex => delivery_or_timeout ex = false)
    (ZigbeeChannel.async_configure random self).
Proof.
  unfold ZigbeeChannel.async_configure.
  apply raises_only_bind; [| intros _; contain].
  destruct (negb _); [| contain].
  apply raises_only_bind; [apply contained_bind | intros _].
  apply raises_only_bind; [| intros _; contain].
  destruct (Cluster.is_server _); [apply contained_configure_each | contain].
Qed.

Lemma contained_wrapper (self : ZigbeeChannel.t) (cmd : command) args kwds :
  raises_only (fun ex => delivery_or_timeout ex = false)
    (decorate_command self cmd args kwds).
Proof. unfold decorate_command. contain. Qed.

Lemma async_configure_raise_status (random : history -> Q)
    (self : ZigbeeChannel.t) (s : state) (ex : exn) :
  (ZigbeeChannel.async_configure random self s).1 = Raise ex →
  _status (ZigbeeChannel.async_configure random self s).2 = _status s.
Proof.
  destruct (ChannelPool.skip_configuration (ZigbeeChannel._ch_pool self))
    eqn:Hskip.
  - rewrite (async_configure_skip_run _ _ _ Hskip). discriminate.
  - rewrite (async_configure_unfold _ _ _ Hskip).
    destruct (bind_run self s) as (log & _ & _ & Hst & _).
    destruct (ZigbeeChannel.bind self s) as [[[] | ex1] s1]; simpl in Hst;
      [| intros _; exact Hst].
    destruct (Cluster.is_server (ZigbeeChannel._cluster self)).
    + destruct (configure_each_run random self
                  (ZigbeeChannel._report_config self) s1)
        as (m & new & _ & Hst1 & _).
      destruct (ZigbeeChannel.configure_each _ _ _ s1) as [[[] | ex2] s2];
        simpl in Hst1; [discriminate | intros _; simpl; congruence].
    + discriminate.
Qed.

(** X1. [bind], [configure_reporting], [async_configure] and every guarded
    command never raise a delivery failure or a timeout: whatever they
    raise is of another class.  An [async_configure] that raises leaves the
    status as it was. *)
Theorem delivery_failures_never_escape (random : history -> Q)
    (self : ZigbeeChannel.t) (attr : attr_ref) (report_config : Z * Z * Z)
    (cmd : command) (args : list pyval) (kwds : list (string * pyval))
    (s : state) (ex : exn) :
  ((ZigbeeChannel.bind self s).1 = Raise ex →
   delivery_or_timeout ex = false) ∧
  ((ZigbeeChannel.configure_reporting self attr report_config s).1
     = Raise ex →
   delivery_or_timeout ex = false) ∧
  ((decorate_command self cmd args kwds s).1 = Raise ex →
   delivery_or_timeout ex = false) ∧
  ((ZigbeeChannel.async_configure random self s).1 = Raise ex →
   delivery_or_timeout ex = false ∧
   _status (ZigbeeChannel.async_configure random self s).2 = _status s).
Proof.
  split; [apply contained_bind |].
  split; [apply contained_configure_reporting |].
  split; [apply contained_wrapper |].
  intros Hraise. split.
  - by apply (contained_async_configure random self s).
  - by apply (async_configure_raise_status random self s ex).
Qed.

Lemma delivery_failures_never_escape_sample :
  delivery_or_timeout (OtherException "ValueError" "bad frame") = false ∧
  _status (ZigbeeChannel.async_configure Samples.random
             (Samples.channel Samples.broken) ZigbeeChannel.created).2
    = CREATED.
Proof.
  destruct (delivery_failures_never_escape Samples.random
              (Samples.channel Samples.broken) (AttrId 0) (30, 900, 1)
              {| __name__ := Some "toggle"; call := Samples.answer_ok |} [] []
              ZigbeeChannel.created
              (OtherException "ValueError" "bad frame"))
    as (_ & _ & _ & Hconfigure).
  apply Hconfigure. reflexivity.
Defined.

(** X2. Only the two lifecycle coroutines change the status: binding,
    configuring one attribute, reading an attribute, a guarded command,
    parsing a command and the inbound hooks all leave it as it was, also
    when they raise. *)
Theorem status_untouched_outside_lifecycle (self : ZigbeeChannel.t)
    (listening : AttributeListeningChannel.t) (attr : attr_ref)
    (report_config : Z * Z * Z) (from_cache : bool) (cmd : command)
    (args : list pyval) (kwds : list (string * pyval))
    (tsn command_id attrid : Z) (value : pyval) (k1 k2 k3 : string)
    (s : state) :
  _status (ZigbeeChannel.bind self s).2 = _status s ∧
  _status (ZigbeeChannel.configure_reporting self attr report_config s).2
    = _status s ∧
  _status (ZigbeeChannel.get_attribute_value self attr from_cache s).2
    = _status s ∧
  _status (decorate_command self cmd args kwds s).2 = _status s ∧
  _status (parse_and_log_command self tsn command_id value s).2
    = _status s ∧
  _status (EventRelayChannel.cluster_command self tsn command_id value s).2
    = _status s ∧
  _status (EventRelayChannel.attribute_updated k1 k2 k3 self attrid value
             s).2 = _status s ∧
  _status (AttributeListeningChannel.attribute_updated listening attrid
             value s).2 = _status s.
Proof.
  split; [by apply (status_kept_bind (_status s)) |].
  split; [by apply (status_kept_configure_reporting (_status s)) |].
  split.
  { apply (preserves_bind (fun s' => _status s' = _status s));
      [apply status_kept_safe_read | intros d; apply preserves_ret | done]. }
  split; [by apply (status_kept_wrapper (_status s)) |].
  split.
  { unfold parse_and_log_command.
    destruct (Cluster.server_commands _); reflexivity. }
  split.
  { unfold EventRelayChannel.cluster_command.
    destruct (Cluster.server_commands _) as [table |]; [| reflexivity].
    destruct (table !! command_id); reflexivity. }
  split; [reflexivity |].
  unfold AttributeListeningChannel.attribute_updated.
  case_decide; reflexivity.
Qed.

(** X3. Every line a channel logs, in configuring, initializing or running
    a guarded command, is at debug level and carries the tag
    [[%s:%s]:] with the pool's network address and the channel's id. *)
Theorem log_lines_tagged (random : history -> Q) (self : ZigbeeChannel.t)
    (from_cache : bool) (cmd : command) (args : list pyval)
    (kwds : list (string * pyval)) (s : state) :
  Forall (tagged self) (trace s) →
  Forall (tagged self)
    (trace (ZigbeeChannel.async_configure random self s).2) ∧
  Forall (tagged self)
    (trace (ZigbeeChannel.async_initialize self from_cache s).2) ∧
  Forall (tagged self) (trace (decorate_command self cmd args kwds s).2).
Proof.
  intros Hs.
  split; [by apply tags_kept_async_configure |].
  split; [by apply tags_kept_async_initialize | by apply tags_kept_wrapper].
Qed.

Lemma log_lines_tagged_sample :
  Forall (tagged (Samples.channel Samples.asleep))
    (trace (ZigbeeChannel.async_configure Samples.random
              (Samples.channel Samples.asleep) ZigbeeChannel.created).2).
Proof.
  apply (log_lines_tagged Samples.random (Samples.channel Samples.asleep)
           true {| __name__ := Some "toggle"; call := Samples.answer_ok |} [] []
           ZigbeeChannel.created).
  apply Forall_nil_2.
Defined.

(** ** Parsing and relaying inbound frames *)

(** X4. With a server-command table, [parse_and_log_command] returns the
    name the table gives the command id, and the id itself when the table
    does not have it; either way it logs one line and raises nothing. *)
Theorem parse_and_log_command_result (channel : ZigbeeChannel.t)
    (server_commands : gmap Z (string * list string * bool))
    (tsn command_id : Z) (args : pyval) (s : state) :
  Cluster.server_commands (ZigbeeChannel._cluster channel)
    = Some server_commands →
  ∃ cmd,
    parse_and_log_command channel tsn command_id args s =
      (Return cmd,
       {| _status := _status s;
          trace := trace s ++
            [Logged DEBUG
               "[%s:%s]: received '%s' command with %s args on cluster_id '%s' tsn '%s'"
               [PInt (ChannelPool.nwk (ZigbeeChannel._ch_pool channel));
                PStr (ZigbeeChannel._id channel); cmd; args;
                PInt (Cluster.cluster_id (ZigbeeChannel._cluster channel));
                PInt tsn]] |}) ∧
    (∀ name schema is_reply,
       server_commands !! command_id = Some (name, schema, is_reply) →
       cmd = PStr name) ∧
    (server_commands !! command_id = None → cmd = PInt command_id).
Proof.
  intros Htable. unfold parse_and_log_command, ZigbeeChannel.cluster.
  rewrite Htable.
  destruct (server_commands !! command_id) as [[[name schema] is_reply] |].
  - exists (PStr name). split; [reflexivity |].
    split; [by intros ? ? ? [= <- _ _] | discriminate].
  - exists (PInt command_id). split; [reflexivity |].
    split; [discriminate | done].
Qed.

Lemma parse_and_log_command_result_sample :
  (parse_and_log_command Samples.relay 1 5 (PList [PInt 7])
     ZigbeeChannel.created).1 = Return (PStr "toggle") ∧
  (parse_and_log_command Samples.relay 1 9 (PList [PInt 7])
     ZigbeeChannel.created).1 = Return (PInt 9).
Proof.
  split.
  - destruct (parse_and_log_command_result Samples.relay
                {[ 5 := ("toggle", [], false) ]} 1 5 (PList [PInt 7])
                ZigbeeChannel.created eq_refl) as (cmd & -> & Hknown & _).
    rewrite (Hknown "toggle" [] false eq_refl). reflexivity.
  - destruct (parse_and_log_command_result Samples.relay
                {[ 5 := ("toggle", [], false) ]} 1 9 (PList [PInt 7])
                ZigbeeChannel.created eq_refl) as (cmd & -> & _ & Hunknown).
    rewrite (Hunknown eq_refl). reflexivity.
Defined.

(** X5. On a cluster whose server-command table is [None],
    [parse_and_log_command] raises [AttributeError] before logging
    anything, where [EventRelayChannel.cluster_command] on the same
    channel returns quietly. *)
Theorem parse_and_log_command_no_table (channel : ZigbeeChannel.t)
    (tsn command_id : Z) (args : pyval) (s : state) :
  Cluster.server_commands (ZigbeeChannel._cluster channel) = None →
  parse_and_log_command channel tsn command_id args s =
    (Raise (AttributeError "'NoneType' object has no attribute 'get'"), s) ∧
  EventRelayChannel.cluster_command channel tsn command_id args s
    = (Return tt, s).
Proof.
  intros Hnone.
  unfold parse_and_log_command, EventRelayChannel.cluster_command,
    ZigbeeChannel.cluster.
  rewrite Hnone. split; reflexivity.
Qed.

Lemma parse_and_log_command_no_table_sample :
  parse_and_log_command (Samples.channel Samples.asleep) 1 5 PNone
    ZigbeeChannel.created =
    (Raise (AttributeError "'NoneType' object has no attribute 'get'"),
     ZigbeeChannel.created).
Proof.
  apply (parse_and_log_command_no_table (Samples.channel Samples.asleep) 1 5
           PNone ZigbeeChannel.created eq_refl).
Defined.

Lemma dict_literal_distinct3 (k1 k2 k3 : string) (v1 v2 v3 : pyval) :
  k1 ≠ k2 → k1 ≠ k3 → k2 ≠ k3 →
  dict_literal [(k1, v1); (k2, v2); (k3, v3)]
    = [(k1, v1); (k2, v2); (k3, v3)].
Proof.
  intros H12 H13 H23. unfold dict_literal; simpl.
  rewrite (proj2 (String.eqb_neq k1 k2) H12); simpl.
  rewrite (proj2 (String.eqb_neq k1 k3) H13),
    (proj2 (String.eqb_neq k2 k3) H23).
  reflexivity.
Qed.

(** X6. An event-relay channel turns every attribute update into exactly
    one event with command [attribute_updated], carrying the attribute id,
    the value, and the name the cluster's attribute table gives the id, or
    ["Unknown"] when the table does not have it; it never raises. *)
Theorem relay_attribute_updated (k_id k_name k_value : string)
    (self : EventRelayChannel.t) (attrid : Z) (value : pyval) (s : state) :
  k_id ≠ k_name → k_id ≠ k_value → k_name ≠ k_value →
  ∃ name,
    EventRelayChannel.attribute_updated k_id k_name k_value self attrid
        value s =
      (Return tt,
       {| _status := _status s;
          trace := trace s ++
            [ZhaSendEvent
               {| ev_unique_id := ZigbeeChannel.unique_id self;
                  ev_cluster_id :=
                    Cluster.cluster_id (ZigbeeChannel._cluster self);
                  ev_command := "attribute_updated";
                  ev_args :=
                    PDict [(k_id, PInt attrid); (k_name, PStr name);
                           (k_value, value)] |}] |}) ∧
    (∀ attr_name type_name,
       Cluster.attributes (ZigbeeChannel._cluster self) !! attrid
         = Some (attr_name, type_name) → name = attr_name) ∧
    (Cluster.attributes (ZigbeeChannel._cluster self) !! attrid = None →
     name = "Unknown").
Proof.
  intros H12 H13 H23. unfold EventRelayChannel.attribute_updated.
  rewrite (dict_literal_distinct3 _ _ _ _ _ _ H12 H13 H23).
  destruct (Cluster.attributes _ !! attrid) as [[attr_name type_name] |].
  - exists attr_name. split; [reflexivity |].
    split; [by intros ? ? [= <- _] | discriminate].
  - exists "Unknown". split; [reflexivity |].
    split; [discriminate | done].
Qed.

Lemma relay_attribute_updated_sample :
  ∃ name,
    (EventRelayChannel.attribute_updated "attribute_id" "attribute_name"
       "value" Samples.relay 7 (PInt 1) ZigbeeChannel.created).1 = Return tt ∧
    name = "Unknown".
Proof.
  destruct (relay_attribute_updated "attribute_id" "attribute_name" "value"
              Samples.relay 7 (PInt 1) ZigbeeChannel.created)
    as (name & Hrun & _ & Hunknown); [discriminate .. |].
  exists name. split; [by rewrite Hrun | by apply Hunknown].
Defined.

(** ** Guarded commands *)

Lemma wrapper_run (channel : ZigbeeChannel.t) (cmd : command)
    (args : list pyval) (kwds : list (string * pyval)) (s : state) :
  ∃ log,
    trace (decorate_command channel cmd args kwds s).2 =
      trace s ++ CommandCall (__name__ cmd) args kwds :: log ∧
    Forall log_line log ∧
    length log =
      match (decorate_command channel cmd args kwds s).1 with
      | Return _ => 1%nat
      | Raise _ => 0%nat
      end.
Proof.
  unfold decorate_command, try_except, await, read_name, mbind, M_bind.
  destruct (call cmd (trace s) args kwds) as [result | ex]; simpl.
  - destruct (__name__ cmd) as [name |]; simpl.
    + eexists [_]. rewrite <- app_assoc. repeat split.
      apply Forall_singleton. auto.
    + exists []. repeat split. apply Forall_nil_2.
  - destruct (delivery_or_timeout ex); simpl.
    + destruct (__name__ cmd) as [name |]; simpl.
      * eexists [_]. rewrite <- app_assoc. repeat split.
        apply Forall_singleton. auto.
      * exists []. repeat split. apply Forall_nil_2.
    + exists []. repeat split. apply Forall_nil_2.
Qed.

(** X7. A guarded command calls the cluster command exactly once, under
    its name and with the positional and keyword arguments it was given,
    before anything else; it then logs one line when it returns (the
    result, or the contained failure) and nothing when it raises. *)
Theorem decorate_command_calls_once (channel : ZigbeeChannel.t)
    (cmd : command) (args : list pyval) (kwds : list (string * pyval))
    (s : state) :
  ∃ log,
    trace (decorate_command channel cmd args kwds s).2 =
      trace s ++ CommandCall (__name__ cmd) args kwds :: log ∧
    Forall log_line log ∧
    filter is_request (emitted (decorate_command channel cmd args kwds) s)
      = [CommandCall (__name__ cmd) args kwds] ∧
    length log =
      match (decorate_command channel cmd args kwds s).1 with
      | Return _ => 1%nat
      | Raise _ => 0%nat
      end.
Proof.
  destruct (wrapper_run channel cmd args kwds s)
    as (log & Htrace & Hlog & Hlen).
  exists log. split; [exact Htrace |]. split; [exact Hlog |].
  split; [| exact Hlen].
  rewrite (emitted_extension _ _ _ Htrace).
  unfold history. rewrite filter_cons_True by done. f_equal.
  clear -Hlog. induction Hlog as [| e log (l & m & a & ->) _ IH]; [done |].
  by rewrite filter_cons_False by (simpl; auto).
Qed.

(** X8. Looking up on a channel a name it does not define, under which the
    cluster has a command that lets itself be renamed, and calling what
    the lookup returns, calls that cluster command under the looked-up
    name with the same arguments, and gives its result when it succeeds. *)
Theorem getattr_then_call (defined : string -> bool)
    (self : ZigbeeChannel.t) (name : string)
    (call : history -> list pyval -> list (string * pyval) -> outcome pyval)
    (args : list pyval) (kwds : list (string * pyval)) (s : state) :
  defined name = false →
  Cluster.getattr (ZigbeeChannel._cluster self) name
    = Some (Callable true call) →
  ∃ w,
    ZigbeeChannel.getattr defined self name = Return (GuardedCommand w) ∧
    head (emitted (w args kwds) s) = Some (CommandCall (Some name) args kwds) ∧
    (∀ result, call (trace s) args kwds = Return result →
               (w args kwds s).1 = Return result).
Proof.
  intros Hundef Hcall. eexists. split.
  { rewrite (getattr_undefined _ _ _ Hundef), Hcall. reflexivity. }
  split.
  - destruct (wrapper_run self {| __name__ := Some name; call := call |} args
                kwds s) as (log & Htrace & _).
    by rewrite (emitted_extension _ _ _ Htrace).
  - intros result Hresult.
    unfold decorate_command, try_except, await, mbind, M_bind; simpl.
    rewrite Hresult. reflexivity.
Qed.

Lemma getattr_then_call_sample :
  ∃ w,
    ZigbeeChannel.getattr Samples.defined (Samples.channel Samples.on_off)
      "toggle" = Return (GuardedCommand w) ∧
    (w [PInt 1] [] ZigbeeChannel.created).1 = Return (PList [PInt 0]).
Proof.
  destruct (getattr_then_call Samples.defined
              (Samples.channel Samples.on_off) "toggle" Samples.answer_ok
              [PInt 1] [] ZigbeeChannel.created eq_refl eq_refl)
    as (w & Hget & _ & Hresult).
  exists w. split; [exact Hget | by apply Hresult].
Defined.

(** X9. Lookup of a name the channel does not define gives a guarded
    command or fails: it never hands out a member, and it gives a guarded
    command only when the cluster has a callable under that name; a
    cluster attribute that is not callable is not forwarded. *)
Theorem getattr_forwards_callables_only (defined : string -> bool)
    (self : ZigbeeChannel.t) (name : string) (found : attribute) :
  defined name = false →
  ZigbeeChannel.getattr defined self name = Return found →
  ∃ call,
    Cluster.getattr (ZigbeeChannel._cluster self) name
      = Some (Callable true call) ∧
    found = GuardedCommand
              (decorate_command self {| __name__ := Some name; call := call |}).
Proof.
  intros Hundef. rewrite (getattr_undefined _ _ _ Hundef).
  destruct (Cluster.getattr _ name) as [[[] call | v] |];
    [| discriminate ..].
  intros [= <-]. by exists call.
Qed.

Lemma getattr_forwards_callables_only_sample :
  ∃ call, Cluster.getattr Samples.on_off "toggle" = Some (Callable true call).
Proof.
  destruct (getattr_forwards_callables_only Samples.defined
              (Samples.channel Samples.on_off) "toggle"
              (GuardedCommand
                 (decorate_command (Samples.channel Samples.on_off)
                    {| __name__ := Some "toggle"; call := Samples.answer_ok |}))
              eq_refl eq_refl) as (call & Hcall & _).
  by exists call.
Defined.

(** ** What gets through [bind] and [configure_reporting] *)

(** X10. [bind] and [configure_reporting] let through what they do not
    contain: an exception of the cluster that is neither a delivery
    failure nor a timeout comes out as it is, and a bind that succeeds with
    an empty result makes [bind] raise [IndexError]; in each case the
    request has been made and nothing is logged. *)
Theorem uncontained_failures_propagate (self : ZigbeeChannel.t)
    (attr : attr_ref) (mn mx ch : Z) (s : state) :
  (Cluster.bind (ZigbeeChannel._cluster self) (trace s) = Return [] →
   ZigbeeChannel.bind self s =
     (Raise (IndexError "list index out of range"),
      {| _status := _status s; trace := trace s ++ [Bind] |})) ∧
  (∀ ex, Cluster.bind (ZigbeeChannel._cluster self) (trace s) = Raise ex →
         delivery_or_timeout ex = false →
         ZigbeeChannel.bind self s =
           (Raise ex,
            {| _status := _status s; trace := trace s ++ [Bind] |})) ∧
  (∀ ex, Cluster.configure_reporting (ZigbeeChannel._cluster self)
           (trace s) attr mn mx ch (manufacturer_sent self) = Raise ex →
         delivery_or_timeout ex = false →
         ZigbeeChannel.configure_reporting self attr (mn, mx, ch) s =
           (Raise ex,
            {| _status := _status s;
               trace := trace s ++
                 [ConfigureReporting attr mn mx ch
                    (manufacturer_sent self)] |})).
Proof.
  split; [| split].
  - intros Hanswer.
    unfold ZigbeeChannel.bind, try_except, await, mbind, M_bind,
      ZigbeeChannel.cluster.
    rewrite Hanswer. reflexivity.
  - intros ex Hanswer Hclass.
    unfold ZigbeeChannel.bind, try_except, await, mbind, M_bind,
      ZigbeeChannel.cluster.
    rewrite Hanswer; simpl. rewrite Hclass. reflexivity.
  - intros ex Hanswer Hclass. unfold manufacturer_sent in *.
    unfold ZigbeeChannel.configure_reporting, try_except, await, mbind,
      M_bind, ZigbeeChannel.cluster.
    rewrite Hanswer; simpl. rewrite Hclass. reflexivity.
Qed.

Lemma uncontained_failures_propagate_sample :
  ZigbeeChannel.bind (Samples.channel Samples.broken) ZigbeeChannel.created =
    (Raise (OtherException "ValueError" "bad frame"),
     {| _status := CREATED; trace := [Bind] |}).
Proof.
  destruct (uncontained_failures_propagate (Samples.channel Samples.broken)
              (AttrId 0) 30 900 1 ZigbeeChannel.created) as (_ & Hbind & _).
  apply (Hbind (OtherException "ValueError" "bad frame")); reflexivity.
Defined.

(** X11. The line [configure_reporting] logs after a successful request
    names the attribute by the name the cluster's attribute table gives
    its id; an id the table does not have is logged as the id itself and a
    symbolic name as that name: a missing table entry is no error. *)
Theorem configure_reporting_logged_name (self : ZigbeeChannel.t)
    (attr : attr_ref) (mn mx ch : Z) (res : pyval) (s : state) :
  Cluster.configure_reporting (ZigbeeChannel._cluster self) (trace s)
    attr mn mx ch (manufacturer_sent self) = Return res →
  ∃ attr_name,
    ZigbeeChannel.configure_reporting self attr (mn, mx, ch) s =
      (Return tt,
       {| _status := _status s;
          trace := trace s ++
            [ConfigureReporting attr mn mx ch (manufacturer_sent self);
             Logged DEBUG
               "[%s:%s]: reporting '%s' attr on '%s' cluster: %d/%d/%d: Result: '%s'"
               [PInt (ChannelPool.nwk (ZigbeeChannel._ch_pool self));
                PStr (ZigbeeChannel._id self); attr_name;
                PStr (Cluster.ep_attribute (ZigbeeChannel._cluster self));
                PInt mn; PInt mx; PInt ch; res]] |}) ∧
    (∀ z name type_name,
       attr = AttrId z →
       Cluster.attributes (ZigbeeChannel._cluster self) !! z
         = Some (name, type_name) →
       attr_name = PStr name) ∧
    (∀ z, attr = AttrId z →
          Cluster.attributes (ZigbeeChannel._cluster self) !! z = None →
          attr_name = PInt z) ∧
    (∀ name, attr = AttrName name → attr_name = PStr name).
Proof.
  intros Hanswer. unfold manufacturer_sent in *. eexists. split.
  - unfold ZigbeeChannel.configure_reporting, try_except, await, mbind,
      M_bind, ZigbeeChannel.cluster.
    rewrite Hanswer; simpl. rewrite ?debug_zigbee; simpl.
    rewrite <- app_assoc. reflexivity.
  - split; [| split].
    + intros z name type_name -> Hentry. by rewrite Hentry.
    + intros z -> Hentry. by rewrite Hentry.
    + by intros name ->.
Qed.

Lemma configure_reporting_logged_name_sample :
    ZigbeeChannel.configure_reporting (Samples.channel Samples.on_off)
      (AttrId 0x0020) (30, 900, 1) ZigbeeChannel.created =
      (Return tt,
       {| _status := CREATED;
          trace :=
            [ConfigureReporting (AttrId 0x0020) 30 900 1 None;
             Logged DEBUG
               "[%s:%s]: reporting '%s' attr on '%s' cluster: %d/%d/%d: Result: '%s'"
               [PInt 0x1234; PStr "1:0x0006"; PInt 0x0020; PStr "on_off";
                PInt 30; PInt 900; PInt 1; PList [PInt 0]]] |}).
Proof.
  destruct (configure_reporting_logged_name (Samples.channel Samples.on_off)
              (AttrId 0x0020) 30 900 1 (PList [PInt 0])
              ZigbeeChannel.created eq_refl)
    as (attr_name & Hrun & _ & Hunknown & _).
  rewrite Hrun, (Hunknown 0x0020 eq_refl eq_refl). reflexivity.
Defined.

(** ** Attribute-listening channels *)

(** X12. An attribute-listening channel cannot be built on an empty
    [REPORT_CONFIG]: [__init__] raises [IndexError].  Built on a
    configuration whose first entry names a numeric attribute id, it
    watches that id whatever the other entries are: an update of that
    attribute gives one signal, named after the pool's unique id with
    its dashes turned to colons, the cluster id in hexadecimal and
    [attribute_updated]; an update of any other attribute gives none. *)
Theorem listening_watches_first_entry (CHANNEL_NAME : option string)
    (z : Z) (cfg : Z * Z * Z) (rest : list report_entry)
    (cluster : Cluster.t) (ch_pool : ChannelPool.t) :
  AttributeListeningChannel.init CHANNEL_NAME [] cluster ch_pool
    = Raise (IndexError "list index out of range") ∧
  ∃ ch,
    AttributeListeningChannel.init CHANNEL_NAME
      ({| attr := AttrId z; config := cfg |} :: rest) cluster ch_pool
      = Return ch ∧
    ∀ attrid value s,
      emitted (AttributeListeningChannel.attribute_updated ch attrid value) s
      = if decide (attrid = z)
        then [SendSignal
                ((replace_char "-" ":" (ChannelPool.unique_id ch_pool)
                    +:+ ":0x" +:+ format_04x (Cluster.cluster_id cluster))
                   +:+ "_attribute_updated")
                [value]]
        else [].
Proof.
  split; [reflexivity |]. eexists. split; [reflexivity |].
  intros attrid value s. apply emitted_extension.
  unfold AttributeListeningChannel.attribute_updated; simpl.
  destruct (decide (attrid = z)) as [-> | Hne].
  - rewrite decide_True by done. reflexivity.
  - rewrite decide_False by congruence. simpl. by rewrite app_nil_r.
Qed.

(** X13. [async_initialize] of an attribute-listening channel first reads
    the attribute of the first report entry, passing [from_cache] both as
    [allow_cache] and as [only_cache], and then initializes as a plain
    channel does; with no report entry it raises [IndexError] and reads
    nothing. *)
Theorem listening_async_initialize (self : AttributeListeningChannel.t)
    (from_cache : bool) (s : state) :
  (ZigbeeChannel._report_config (AttributeListeningChannel.base self) = [] →
   AttributeListeningChannel.async_initialize self from_cache s =
     (Raise (IndexError "list index out of range"), s)) ∧
  (∀ first rest answer,
     ZigbeeChannel._report_config (AttributeListeningChannel.base self)
       = first :: rest →
     Cluster.read_attributes
       (ZigbeeChannel._cluster (AttributeListeningChannel.base self))
       (trace s) [attr first] from_cache from_cache
       (manufacturer_sent (AttributeListeningChannel.base self))
       = Return answer →
       AttributeListeningChannel.async_initialize self from_cache s =
         (Return tt,
          {| _status := INITIALIZED;
             trace := trace s ++
               [ReadAttributes [attr first] from_cache from_cache
                  (manufacturer_sent (AttributeListeningChannel.base self));
                Logged DEBUG "[%s:%s]: initializing channel: from_cache: %s"
                  [PInt (ChannelPool.nwk
                           (ZigbeeChannel._ch_pool
                              (AttributeListeningChannel.base self)));
                   PStr (ZigbeeChannel._id
                           (AttributeListeningChannel.base self));
                   PBool from_cache]] |})).
Proof.
  split.
  - intros Hempty. unfold AttributeListeningChannel.async_initialize.
    rewrite Hempty. reflexivity.
  - intros first rest answer Hconfig Hanswer. unfold manufacturer_sent in *.
    unfold AttributeListeningChannel.async_initialize,
      ZigbeeChannel.get_attribute_value, ZigbeeChannel.async_initialize,
      safe_read, try_except, await, mbind, M_bind, ZigbeeChannel.cluster.
    rewrite Hconfig; simpl. rewrite Hanswer; simpl.
    rewrite <- app_assoc. reflexivity.
Qed.

Lemma listening_async_initialize_sample :
  _status (AttributeListeningChannel.async_initialize Samples.listening true
             ZigbeeChannel.created).2 = INITIALIZED.
Proof.
  destruct (listening_async_initialize Samples.listening true
              ZigbeeChannel.created) as [_ Hread].
  rewrite (Hread {| attr := AttrId 0x0020; config := (30, 900, 1) |}
             [ {| attr := AttrName "level"; config := (1, 60, 5) |} ]
             [(AttrId 0x0020, PInt 42)] eq_refl eq_refl).
  reflexivity.
Defined.

(** ** The ZDO channel *)

(** X14. The lifecycle coroutines of a [ZDOChannel] only set the status:
    whatever calls are made and in whatever order, nothing is logged and
    nothing is asked of the cluster or the device. *)
Theorem zdo_calls_silent (zdo : ZDOChannel.t) (calls : list lifecycle_call)
    (s : state) :
  trace (run_calls (zdo_call zdo) calls s).2 = trace s ∧
  emitted (run_calls (zdo_call zdo) calls) s = [].
Proof.
  assert (Htrace : trace (run_calls (zdo_call zdo) calls s).2 = trace s).
  { revert s. induction calls as [| c rest IH]; intros s; [reflexivity |].
    simpl. unfold mbind, M_bind, get_status.
    assert (Hstep : zdo_call zdo c s =
              (Return tt, {| _status := status_after c; trace := trace s |}))
      by (destruct c; reflexivity).
    rewrite Hstep.
    specialize (IH {| _status := status_after c; trace := trace s |}).
    destruct (run_calls (zdo_call zdo) rest _) as [[seen | ex] s2];
      simpl in *; exact IH. }
  split; [exact Htrace |].
  apply emitted_extension. by rewrite Htrace, app_nil_r.
Qed.

(** ** Identifiers *)

Lemma hex_value_from_pos (d : Hexadecimal.uint) (acc : positive) :
  hex_value_from (Npos acc) (NilEmpty.string_of_uint d)
    = Some (Npos (Pos.of_hex_uint_acc d acc)).
Proof.
  revert acc. induction d; intros acc; simpl; [reflexivity | ..];
    rewrite <- IHd; f_equal; cbv [Pos.mul]; lia.
Qed.

Lemma hex_value_from_zero (d : Hexadecimal.uint) :
  hex_value_from 0 (NilEmpty.string_of_uint d) = Some (Pos.of_hex_uint d).
Proof.
  induction d; simpl; [reflexivity | exact IHd | ..];
    apply hex_value_from_pos.
Qed.

Lemma hex_value_digits (n : N) : hex_value (hex_digits n) = Some n.
Proof.
  unfold hex_value, hex_digits. destruct n as [| p]; [reflexivity |].
  unfold NilZero.string_of_uint.
  pose proof (HexadecimalN.Unsigned.of_to (Npos p)) as Hof.
  pose proof (hex_value_from_zero (N.to_hex_uint (N.pos p))) as Hval.
  destruct (N.to_hex_uint (N.pos p)) eqn:Hd;
    try (rewrite Hval; f_equal; exact Hof).
  simpl in Hof. discriminate.
Qed.

Lemma hex_value_zero_pad (width : nat) (s : string) :
  hex_value (zero_pad width s) = hex_value s.
Proof.
  unfold hex_value, zero_pad.
  induction (width - String.length s)%nat as [| k IH]; [reflexivity |].
  exact IH.
Qed.

Lemma length_append (s1 s2 : string) :
  String.length (s1 +:+ s2) = (String.length s1 + String.length s2)%nat.
Proof. induction s1 as [| c s1 IH]; simpl; [reflexivity | by rewrite IH]. Qed.

Lemma length_zero_pad (width : nat) (s : string) :
  (width ≤ String.length (zero_pad width s))%nat.
Proof.
  unfold zero_pad. rewrite length_append.
  assert (Hzeros : ∀ k, String.length (zeros k) = k).
  { induction k as [| k IH]; simpl; [reflexivity | by f_equal]. }
  rewrite Hzeros. lia.
Qed.

Lemma hex_value_no_dash (s : string) (acc n : N) :
  hex_value_from acc s = Some n → has_char "-" s = false.
Proof.
  revert acc. induction s as [| c s IH]; intros acc; simpl; [done |].
  destruct (Ascii.eqb_spec c "-") as [-> | Hne]; [discriminate |].
  destruct (hex_digit_value c); [apply IH | discriminate].
Qed.

Lemma has_char_append (c : Ascii.ascii) (s1 s2 : string) :
  has_char c (s1 +:+ s2) = has_char c s1 || has_char c s2.
Proof.
  induction s1 as [| c1 s1 IH]; simpl; [reflexivity |].
  by rewrite IH, orb_assoc.
Qed.

Lemma has_char_replace (old new : Ascii.ascii) (s : string) :
  old ≠ new → has_char old (replace_char old new s) = false.
Proof.
  intros Hne. induction s as [| c s IH]; simpl; [reflexivity |].
  rewrite IH, orb_false_r.
  destruct (Ascii.eqb_spec c old) as [-> | Hc].
  - apply Ascii.eqb_neq. congruence.
  - by apply Ascii.eqb_neq.
Qed.

Lemma format_04x_value (z : Z) :
  0 ≤ z → hex_value (format_04x z) = Some (Z.to_N z).
Proof.
  intros Hz. unfold format_04x.
  destruct (Z.ltb_spec z 0); [lia |].
  rewrite hex_value_zero_pad. apply hex_value_digits.
Qed.

Lemma format_04x_length (z : Z) : (4 ≤ String.length (format_04x z))%nat.
Proof.
  unfold format_04x. destruct (z <? 0).
  - rewrite length_append.
    pose proof (length_zero_pad 3 (hex_digits (Z.to_N (- z)))) as Hpad.
    change (String.length "-") with 1%nat. lia.
  - apply length_zero_pad.
Qed.

(** X15. The identifiers [__init__] builds end in the cluster id written
    in lower-case hexadecimal on at least four characters: the generic id
    is [channel_0x] and these digits, the id is the pool's id, [:0x] and
    these digits, and for a cluster id that is not negative the digits
    read back as the cluster id. *)
Theorem init_identifiers (CHANNEL_NAME : option string)
    (REPORT_CONFIG : list report_entry) (cluster : Cluster.t)
    (ch_pool : ChannelPool.t) :
  ∃ digits,
    ZigbeeChannel.generic_id
      (ZigbeeChannel.init CHANNEL_NAME REPORT_CONFIG cluster ch_pool)
      = "channel_0x" +:+ digits ∧
    ZigbeeChannel.id
      (ZigbeeChannel.init CHANNEL_NAME REPORT_CONFIG cluster ch_pool)
      = ChannelPool.id ch_pool +:+ ":0x" +:+ digits ∧
    (4 ≤ String.length digits)%nat ∧
    (0 ≤ Cluster.cluster_id cluster →
     hex_value digits = Some (Z.to_N (Cluster.cluster_id cluster))).
Proof.
  exists (format_04x (Cluster.cluster_id cluster)).
  split; [reflexivity |]. split; [reflexivity |].
  split; [apply format_04x_length | apply format_04x_value].
Qed.

Lemma init_identifiers_sample :
  ∃ digits,
    ZigbeeChannel.id (Samples.channel Samples.vendor) = "1:0x" +:+ digits ∧
    hex_value digits = Some 0xFC10%N.
Proof.
  destruct (init_identifiers None Samples.entries Samples.vendor
              Samples.pool) as (digits & _ & Hid & _ & Hvalue).
  exists digits. split; [exact Hid |]. apply Hvalue. done.
Defined.

(** X16. Channels built on one pool for clusters with different cluster
    ids (none negative) differ in their id, their generic id and their
    unique id. *)
Theorem init_identifiers_distinct (name1 name2 : option string)
    (config1 config2 : list report_entry) (cluster1 cluster2 : Cluster.t)
    (ch_pool : ChannelPool.t) :
  0 ≤ Cluster.cluster_id cluster1 →
  0 ≤ Cluster.cluster_id cluster2 →
  Cluster.cluster_id cluster1 ≠ Cluster.cluster_id cluster2 →
  ZigbeeChannel.id (ZigbeeChannel.init name1 config1 cluster1 ch_pool)
    ≠ ZigbeeChannel.id (ZigbeeChannel.init name2 config2 cluster2 ch_pool) ∧
  ZigbeeChannel.generic_id
    (ZigbeeChannel.init name1 config1 cluster1 ch_pool)
    ≠ ZigbeeChannel.generic_id
        (ZigbeeChannel.init name2 config2 cluster2 ch_pool) ∧
  ZigbeeChannel.unique_id
    (ZigbeeChannel.init name1 config1 cluster1 ch_pool)
    ≠ ZigbeeChannel.unique_id
        (ZigbeeChannel.init name2 config2 cluster2 ch_pool).
Proof.
  intros H1 H2 Hne.
  assert (Hdigits : format_04x (Cluster.cluster_id cluster1)
                    ≠ format_04x (Cluster.cluster_id cluster2)).
  { intros Heq. apply (f_equal hex_value) in Heq.
    rewrite !format_04x_value in Heq by done.
    injection Heq as Heq. apply Hne. lia. }
  unfold ZigbeeChannel.id, ZigbeeChannel.generic_id, ZigbeeChannel.unique_id;
    simpl.
  repeat split; intros Heq; apply Hdigits;
    repeat (apply String.app_inj in Heq); exact Heq.
Qed.

Lemma init_identifiers_distinct_sample :
  ZigbeeChannel.id (Samples.channel Samples.on_off)
    ≠ ZigbeeChannel.id (Samples.channel Samples.vendor).
Proof.
  apply (init_identifiers_distinct None None Samples.entries Samples.entries
           Samples.on_off Samples.vendor Samples.pool); done.
Defined.

(** X17. The unique id of a channel whose cluster id is not negative
    contains no dash: the dashes of the pool's unique id are turned to
    colons and the rest has none. *)
Theorem unique_id_has_no_dash (CHANNEL_NAME : option string)
    (REPORT_CONFIG : list report_entry) (cluster : Cluster.t)
    (ch_pool : ChannelPool.t) :
  0 ≤ Cluster.cluster_id cluster →
  has_char "-"
    (ZigbeeChannel.unique_id
       (ZigbeeChannel.init CHANNEL_NAME REPORT_CONFIG cluster ch_pool))
    = false.
Proof.
  intros Hid. unfold ZigbeeChannel.unique_id; simpl.
  rewrite !has_char_append, has_char_replace by done.
  rewrite (hex_value_no_dash _ _ _ (format_04x_value _ Hid)).
  reflexivity.
Qed.

Lemma unique_id_has_no_dash_sample :
  has_char "-" (ZigbeeChannel.unique_id (Samples.channel Samples.on_off))
    = false.
Proof.
  apply (unique_id_has_no_dash None Samples.entries Samples.on_off
           Samples.pool). done.
Defined.

(** ** Configurations that go through *)

(** X18. When the transport fails only by delivery failure or timeout (a
    device asleep, say), a configuration that is not skipped goes through
    its whole schedule and ends [CONFIGURED]: a failed bind or a failed
    entry does not keep the later entries from being configured. *)
Theorem async_configure_goes_through (random : history -> Q)
    (self : ZigbeeChannel.t) (s : state) :
  ChannelPool.skip_configuration (ZigbeeChannel._ch_pool self) = false →
  fails_only_by_delivery_or_timeout (ZigbeeChannel._cluster self) →
  (ZigbeeChannel.async_configure random self s).1 = Return tt ∧
  _status (ZigbeeChannel.async_configure random self s).2 = CONFIGURED ∧
  ∃ m,
    omap step_of (emitted (ZigbeeChannel.async_configure random self) s) =
      BindStep ::
        (if Cluster.is_server (ZigbeeChannel._cluster self)
         then reporting_schedule m (ZigbeeChannel._report_config self)
         else []).
Proof.
  intros Hskip Hbenign.
  destruct (async_configure_run random self s Hskip)
    as (m & new & Htrace & _ & Hfull & _ & Hok).
  specialize (Hok Hbenign). destruct (Hfull Hok) as [Hsteps Hstatus].
  split; [exact Hok |]. split; [exact Hstatus |].
  exists m. by rewrite (emitted_extension _ _ _ Htrace).
Qed.

Lemma async_configure_goes_through_sample :
  (ZigbeeChannel.async_configure Samples.random
     (Samples.channel Samples.asleep) ZigbeeChannel.created).1 = Return tt ∧
  length
    (omap step_of
       (emitted (ZigbeeChannel.async_configure Samples.random
                   (Samples.channel Samples.asleep)) ZigbeeChannel.created))
    = 5%nat.
Proof.
  destruct (async_configure_goes_through Samples.random
              (Samples.channel Samples.asleep) ZigbeeChannel.created
              eq_refl sample_asleep_contained) as (Hret & _ & m & Hsteps).
  split; [exact Hret |]. rewrite Hsteps. reflexivity.
Defined.

Lemma log_lines_no_request (log : list event) :
  Forall log_line log → filter is_request log = [].
Proof.
  induction 1 as [| e log (level & msg & args & ->) _ IH]; [done |].
  by rewrite filter_cons_False by (simpl; auto).
Qed.

(** X19. An event-relay channel declares no report configuration: its
    configuration, when not skipped, makes exactly one request of the
    cluster, the bind (no reporting request, no read, no command), and no
    pause, whether or not the cluster is a server and whether or not the
    bind succeeds. *)
Theorem relay_configure_only_binds (random : history -> Q)
    (CHANNEL_EVENT_RELAY : string) (cluster : Cluster.t)
    (ch_pool : ChannelPool.t) (s : state) :
  ChannelPool.skip_configuration ch_pool = false →
  filter is_request
    (emitted (ZigbeeChannel.async_configure random
                (EventRelayChannel.init CHANNEL_EVENT_RELAY cluster ch_pool))
       s)
    = [Bind] ∧
  omap pause_of
    (emitted (ZigbeeChannel.async_configure random
                (EventRelayChannel.init CHANNEL_EVENT_RELAY cluster ch_pool))
       s)
    = [].
Proof.
  intros Hskip.
  set (self := EventRelayChannel.init CHANNEL_EVENT_RELAY cluster ch_pool).
  assert (Htrace : ∃ log,
            trace (ZigbeeChannel.async_configure random self s).2
              = trace s ++ Bind :: log ∧ Forall log_line log).
  { rewrite (async_configure_unfold random self s Hskip).
    destruct (bind_run self s) as (log & Htrace & Hlog & _).
    destruct (ZigbeeChannel.bind self s) as [[[] | ex] s1]; simpl in Htrace.
    - assert (Hloop : (if Cluster.is_server (ZigbeeChannel._cluster self)
                       then ZigbeeChannel.configure_each random self
                              (ZigbeeChannel._report_config self)
                       else mret tt) s1 = (Return tt, s1))
        by (destruct (Cluster.is_server _); reflexivity).
      rewrite Hloop. eexists (log ++ [_]). simpl.
      rewrite Htrace, <- app_assoc. split; [reflexivity |].
      apply Forall_app. split; [exact Hlog |].
      apply Forall_singleton. auto.
    - exists log. by split. }
  destruct Htrace as (log & Htrace & Hlog).
  rewrite (emitted_extension _ _ _ Htrace). split.
  - unfold history. rewrite filter_cons_True by done.
    by rewrite (log_lines_no_request _ Hlog).
  - change (omap pause_of log = []). by apply log_lines_no_pause.
Qed.

Lemma relay_configure_only_binds_sample :
  filter is_request
    (emitted (ZigbeeChannel.async_configure Samples.random Samples.relay)
       ZigbeeChannel.created)
    = [Bind].
Proof.
  apply (relay_configure_only_binds Samples.random "event_relay"
           Samples.on_off Samples.pool ZigbeeChannel.created eq_refl).
Defined.

(** ** The pauses of a configuration *)

Lemma pauses_drawn_snoc (random : history -> Q) (before new : history)
    (e : event) :
  pauses_drawn random before new →
  match e with
  | Sleep d =>
      d = ((1 # 10) + ((1 # 2) - (1 # 10)) * random (before ++ new))%Q
  | _ => True
  end →
  pauses_drawn random before (new ++ [e]).
Proof.
  revert before. induction new as [| e' new IH]; intros before Hnew He.
  - rewrite app_nil_r in He. simpl. by split.
  - destruct Hnew as [He' Hnew]. split; [exact He' |].
    apply IH; [exact Hnew |]. by rewrite <- app_assoc.
Qed.

Lemma paced_emit (random : history -> Q) (base : history) (e : event) :
  pause_of e = None → preserves (paced random base) (emit e).
Proof.
  intros He s (new & Htrace & Hnew). exists (new ++ [e]). simpl. split.
  - by rewrite Htrace, app_assoc.
  - apply pauses_drawn_snoc; [exact Hnew |]. by destruct e.
Qed.

Lemma paced_await {A} (random : history -> Q) (base : history) (e : event)
    (answer : history -> outcome A) :
  pause_of e = None → preserves (paced random base) (await e answer).
Proof.
  intros He s (new & Htrace & Hnew). exists (new ++ [e]). simpl. split.
  - by rewrite Htrace, app_assoc.
  - apply pauses_drawn_snoc; [exact Hnew |]. by destruct e.
Qed.

Lemma paced_debug (random : history -> Q) (base : history)
    (self : ZigbeeChannel.t) msg args :
  preserves (paced random base) (debug self msg args).
Proof. by apply paced_emit. Qed.

Lemma paced_set_status (random : history -> Q) (base : history)
    (st : ChannelStatus) :
  preserves (paced random base) (set_status st).
Proof. intros s Hs. exact Hs. Qed.

Lemma paced_sleep (random : history -> Q) (base : history) :
  preserves (paced random base)
    (ZigbeeChannel.sleep_uniform random (1 # 10) (1 # 2)).
Proof.
  intros s (new & Htrace & Hnew).
  exists (new ++ [Sleep (uniform (1 # 10) (1 # 2) (random (trace s)))]).
  simpl. split.
  - by rewrite Htrace, app_assoc.
  - apply pauses_drawn_snoc; [exact Hnew |]. by rewrite Htrace.
Qed.

#[local] Hint Resolve paced_debug paced_set_status paced_sleep : kept.

Ltac pace :=
  repeat first
    [ apply preserves_bind; [| intros ?]
    | apply preserves_try_except; [| intros ?]
    | apply paced_await; reflexivity
    | solve [auto with kept] ].

Lemma paced_configure_each (random : history -> Q) (base : history)
    (self : ZigbeeChannel.t) (entries : list report_entry) :
  preserves (paced random base)
    (ZigbeeChannel.configure_each random self entries).
Proof.
  induction entries as [| [a [[mn mx] ch]] rest IH]; simpl.
  - pace.
  - apply preserves_bind;
      [unfold ZigbeeChannel.configure_reporting; pace | intros _].
    apply preserves_bind; [apply paced_sleep | intros _; exact IH].
Qed.

Lemma paced_async_configure (random : history -> Q) (base : history)
    (self : ZigbeeChannel.t) :
  preserves (paced random base) (ZigbeeChannel.async_configure random self).
Proof.
  unfold ZigbeeChannel.async_configure.
  apply preserves_bind; [| intros _; pace].
  destruct (negb _); [| pace].
  apply preserves_bind; [unfold ZigbeeChannel.bind; pace | intros _].
  apply preserves_bind; [| intros _; pace].
  destruct (Cluster.is_server _); [apply paced_configure_each | pace].
Qed.

Lemma async_configure_pauses (random : history -> Q)
    (self : ZigbeeChannel.t) (s : state) :
  pauses_drawn random (trace s)
    (emitted (ZigbeeChannel.async_configure random self) s).
Proof.
  destruct (paced_async_configure random (trace s) self s)
    as (new & Htrace & Hnew).
  - exists []. by rewrite app_nil_r.
  - by rewrite (emitted_extension _ _ _ Htrace).
Qed.

(** The pause sweeps [[0.1, 0.5)] one to one as the draw sweeps
    [[0, 1)]. *)
Lemma uniform_onto (t : Q) :
  (1 # 10 <= t)%Q → (t < 1 # 2)%Q →
  ∃ draw, (0 <= draw)%Q ∧ (draw < 1)%Q ∧
          (uniform (1 # 10) (1 # 2) draw == t)%Q.
Proof.
  intros Hlo Hhi. exists ((t - (1 # 10)) * (5 # 2))%Q. unfold uniform.
  split; [lra |]. split; [lra |]. ring.
Qed.

Lemma uniform_one_to_one (draw1 draw2 : Q) :
  (uniform (1 # 10) (1 # 2) draw1 == uniform (1 # 10) (1 # 2) draw2)%Q →
  (draw1 == draw2)%Q.
Proof. unfold uniform. intros Heq. lra. Qed.

(** C6. In an [async_configure] that is not skipped, the requests and
    pauses follow one schedule: the bind first; then, when the cluster is
    a server, the declared entries in declared order, each followed by a
    pause, so that a pause separates any two successive reporting
    requests; nothing after the bind when it is not a server.  A call that
    returns has gone through the whole schedule, and a call that an
    exception ends has gone through a beginning of it.  Every pause lasts
    0.1 + (0.5 - 0.1) * draw, where the draw is that of [random()] at the
    moment of the pause; it lies between 0.1 and 0.5, and as the draw
    sweeps [[0, 1)] it sweeps [[0.1, 0.5)] one to one, so that it is
    spread over that interval as the draw is over its own. *)
Theorem async_configure_order_and_pacing (random : history -> Q)
    (self : ZigbeeChannel.t) (s : state) :
  ChannelPool.skip_configuration (ZigbeeChannel._ch_pool self) = false →
  (∀ h, (0 <= random h)%Q ∧ (random h < 1)%Q) →
  (∃ m,
     omap step_of (emitted (ZigbeeChannel.async_configure random self) s)
       `prefix_of`
       BindStep ::
         (if Cluster.is_server (ZigbeeChannel._cluster self)
          then reporting_schedule m (ZigbeeChannel._report_config self)
          else []) ∧
     ((ZigbeeChannel.async_configure random self s).1 = Return tt →
      omap step_of (emitted (ZigbeeChannel.async_configure random self) s) =
        BindStep ::
          (if Cluster.is_server (ZigbeeChannel._cluster self)
           then reporting_schedule m (ZigbeeChannel._report_config self)
           else []))) ∧
  Forall (fun d => ∃ h, d = uniform (1 # 10) (1 # 2) (random h) ∧
                        (1 # 10 <= d)%Q ∧ (d <= 1 # 2)%Q)
    (omap pause_of (emitted (ZigbeeChannel.async_configure random self) s)) ∧
  pauses_drawn random (trace s)
    (emitted (ZigbeeChannel.async_configure random self) s) ∧
  (∀ t, (1 # 10 <= t)%Q → (t < 1 # 2)%Q →
        ∃ draw, (0 <= draw)%Q ∧ (draw < 1)%Q ∧
                (uniform (1 # 10) (1 # 2) draw == t)%Q) ∧
  (∀ draw1 draw2,
     (uniform (1 # 10) (1 # 2) draw1 == uniform (1 # 10) (1 # 2) draw2)%Q →
     (draw1 == draw2)%Q).
Proof.
  intros Hskip Hrange.
  destruct (async_configure_run random self s Hskip)
    as (m & new & Htrace & Hprefix & Hfull & Hpauses & _).
  split; [| split; [| split; [| split]]].
  - rewrite (emitted_extension _ _ _ Htrace).
    exists m. split; [exact Hprefix |]. intros Hret. by apply Hfull.
  - rewrite (emitted_extension _ _ _ Htrace).
    eapply Forall_impl; [exact Hpauses |].
    intros d (h & ->). exists h. split; [reflexivity |].
    destruct (Hrange h). by apply uniform_bounds.
  - apply async_configure_pauses.
  - apply uniform_onto.
  - apply uniform_one_to_one.
Qed.

Lemma async_configure_order_and_pacing_sample :
  (∃ m,
     omap step_of
       (emitted (ZigbeeChannel.async_configure Samples.random
                   (Samples.channel Samples.on_off)) ZigbeeChannel.created)
     = BindStep :: reporting_schedule m Samples.entries) ∧
  pauses_drawn Samples.random []
    (emitted (ZigbeeChannel.async_configure Samples.random
                (Samples.channel Samples.on_off)) ZigbeeChannel.created) ∧
  omap pause_of
    (emitted (ZigbeeChannel.async_configure Samples.random
                (Samples.channel Samples.on_off)) ZigbeeChannel.created)
  = [((1 # 10) + ((1 # 2) - (1 # 10)) * (1 # 6))%Q;
     ((1 # 10) + ((1 # 2) - (1 # 10)) * (1 # 9))%Q].
Proof.
  destruct (async_configure_order_and_pacing Samples.random
              (Samples.channel Samples.on_off) ZigbeeChannel.created
              eq_refl sample_random_range)
    as ((m & _ & Hfull) & _ & Hdrawn & _).
  split; [exists m; apply Hfull; reflexivity |].
  split; [exact Hdrawn | reflexivity].
Defined.
